(** * Tabular presets of LightAutoML: budget estimation and pipeline assembly

    A shallow embedding of [lightautoml/automl/presets/tabular_presets.py]:
    the classes [TabularAutoML] and [TabularUtilizedAutoML].

    Conventions of the embedding.
    - Python [int] values are [Z]; Python [float] values (the relative cost
      scores and the multipliers 0.8, 0.1, 0.5) are exact rationals [Q], so
      every product is computed without rounding.
    - The configuration sections ([general_params], [tuning_params], ...) are
      dictionaries with a fixed set of keys; each is a record with one field
      per key that the preset reads or writes.
    - A raised exception is the [Raise] constructor of [result].
    - [self.timer.get_task_timer] mutates the pipeline timer; the builders
      thread the list of issued task timers through a state-and-error monad.
    - Collaborators that live in other modules (the reader functions, the
      parent class engine) are fields of the [Collaborators] record. *)

From Stdlib Require Import ZArith QArith Lqa String Ascii List Lia.
From stdpp Require Import base option list gmap strings pretty.

Local Open Scope string_scope.
Local Open Scope Z_scope.

(** ** Exceptions and results *)

Inductive exn : Type :=
| KeyError (key : string)
| ValueError (msg : string).

Inductive result (A : Type) : Type :=
| Ok (a : A)
| Raise (e : exn).
Arguments Ok {A} a.
Arguments Raise {A} e.

Definition is_ok {A} (r : result A) : bool :=
  match r with Ok _ => true | Raise _ => false end.

Definition raises_ValueError {A} (r : result A) : bool :=
  match r with Raise (ValueError _) => true | _ => false end.

Definition raises_KeyError {A} (r : result A) : bool :=
  match r with Raise (KeyError _) => true | _ => false end.

(** ** String helpers for the Python string operations used by the preset *)

(** [sub in s] *)
Fixpoint str_contains (sub s : string) : bool :=
  String.prefix sub s ||
  match s with
  | EmptyString => false
  | String _ s' => str_contains sub s'
  end.

(** [s.split(sep)[0]]: the part of [s] before the first [sep]. *)
Fixpoint split_head (sep : ascii) (s : string) : string :=
  match s with
  | EmptyString => EmptyString
  | String c s' => if Ascii.eqb c sep then EmptyString else String c (split_head sep s')
  end.

(** [s.replace(a, b)] for single characters. *)
Fixpoint replace_char (a b : ascii) (s : string) : string :=
  match s with
  | EmptyString => EmptyString
  | String c s' => String (if Ascii.eqb c a then b else c) (replace_char a b s')
  end.

(** [x in l] for a list of strings. *)
Definition str_in (x : string) (l : list string) : bool :=
  existsb (String.eqb x) l.

(** ** Configuration *)

(** An option that may hold the sentinel ['auto']. *)
Inductive auto_or (A : Type) : Type :=
| Auto
| Fixed (a : A).
Arguments Auto {A}.
Arguments Fixed {A} a.

Record GeneralParams := {
  use_algos : auto_or (list (list string));
  nested_cv : bool;
  skip_conn : bool }.

Record NestedCvParams := {
  cv : Z;
  n_folds : option Z;
  inner_tune : bool;
  refit_tuner : bool }.

Record TuningParams := {
  max_tuning_iter : auto_or Z;
  max_tuning_time : Z;
  tuning_fit_on_holdout : bool }.

Record SelectionParams := {
  mode : Z;
  importance_type : string;
  cutoff : Q;
  fit_on_holdout : bool;
  feature_group_size : Z;
  max_features_cnt_in_result : option Z;
  select_algos : list string }.

Record LgbDefaultParams := {
  num_threads : Z;
  feature_fraction : Q }.

Record LgbParams := {
  lgb_default_params : LgbDefaultParams;
  lgb_freeze_defaults : bool }.

Record CbDefaultParams := {
  task_type : string;
  devices : option string;
  thread_count : Z }.

Record CbParams := {
  cb_default_params : CbDefaultParams;
  cb_freeze_defaults : bool }.

Record ReaderParams := {
  n_jobs : Z;
  reader_cv : Z }.

(** A keyword-argument dictionary that the preset forwards without reading
    it: option name to value. *)
Inductive PyVal : Type :=
| PyNone
| PyBool (b : bool)
| PyInt (n : Z)
| PyStr (s : string)
| PyStrList (l : list string)
| PyStrDict (d : gmap string string).

Abbreviation Kwargs := (gmap string PyVal).

Record Task := {
  task_name : string;
  task_losses : list string }.

(** A column role, as far as the preset looks at it. *)
Record Role := {
  role_name : string;
  role_dtype : string }.

(** The reader attribute; the attributes [used_features] and [roles] exist
    once the reader is there. *)
Record Reader := {
  used_features : list string;
  reader_roles : gmap string Role }.

(** The attributes of a [TabularAutoML] instance that its methods use.
    [reader] is [None] until the instance has been initialised with one:
    reading [self.reader] then raises [AttributeError]. *)
Record TabularAutoML := {
  task : Task;
  cpu_limit : Z;
  gpu_ids : option string;
  general_params : GeneralParams;
  nested_cv_params : NestedCvParams;
  tuning_params : TuningParams;
  selection_params : SelectionParams;
  lgb_params : LgbParams;
  cb_params : CbParams;
  reader_params : ReaderParams;
  linear_l2_params : Kwargs;
  gbm_pipeline_params : Kwargs;
  linear_pipeline_params : Kwargs;
  read_csv_params : Kwargs;
  reader : option Reader }.

(** Item assignments [self.section['key'] = v]. *)

Definition set_max_tuning_iter (v : auto_or Z) (self : TabularAutoML) : TabularAutoML :=
  let t := tuning_params self in
  {| task := task self; cpu_limit := cpu_limit self; gpu_ids := gpu_ids self;
     general_params := general_params self;
     nested_cv_params := nested_cv_params self;
     tuning_params := {| max_tuning_iter := v;
                         max_tuning_time := max_tuning_time t;
                         tuning_fit_on_holdout := tuning_fit_on_holdout t |};
     selection_params := selection_params self;
     lgb_params := lgb_params self; cb_params := cb_params self;
     reader_params := reader_params self;
     linear_l2_params := linear_l2_params self;
     gbm_pipeline_params := gbm_pipeline_params self;
     linear_pipeline_params := linear_pipeline_params self;
     read_csv_params := read_csv_params self;
     reader := reader self |}.

Definition set_general_params (g : GeneralParams) (self : TabularAutoML) : TabularAutoML :=
  {| task := task self; cpu_limit := cpu_limit self; gpu_ids := gpu_ids self;
     general_params := g;
     nested_cv_params := nested_cv_params self;
     tuning_params := tuning_params self;
     selection_params := selection_params self;
     lgb_params := lgb_params self; cb_params := cb_params self;
     reader_params := reader_params self;
     linear_l2_params := linear_l2_params self;
     gbm_pipeline_params := gbm_pipeline_params self;
     linear_pipeline_params := linear_pipeline_params self;
     read_csv_params := read_csv_params self;
     reader := reader self |}.

Definition set_use_algos (v : auto_or (list (list string))) (self : TabularAutoML) : TabularAutoML :=
  let g := general_params self in
  set_general_params
    {| use_algos := v; nested_cv := nested_cv g; skip_conn := skip_conn g |} self.

Definition set_skip_conn (b : bool) (self : TabularAutoML) : TabularAutoML :=
  let g := general_params self in
  set_general_params
    {| use_algos := use_algos g; nested_cv := nested_cv g; skip_conn := b |} self.

Definition set_cv (v : Z) (self : TabularAutoML) : TabularAutoML :=
  let n := nested_cv_params self in
  {| task := task self; cpu_limit := cpu_limit self; gpu_ids := gpu_ids self;
     general_params := general_params self;
     nested_cv_params := {| cv := v; n_folds := n_folds n;
                            inner_tune := inner_tune n;
                            refit_tuner := refit_tuner n |};
     tuning_params := tuning_params self;
     selection_params := selection_params self;
     lgb_params := lgb_params self; cb_params := cb_params self;
     reader_params := reader_params self;
     linear_l2_params := linear_l2_params self;
     gbm_pipeline_params := gbm_pipeline_params self;
     linear_pipeline_params := linear_pipeline_params self;
     read_csv_params := read_csv_params self;
     reader := reader self |}.

Definition set_cb_default_params (d : CbDefaultParams) (self : TabularAutoML) : TabularAutoML :=
  {| task := task self; cpu_limit := cpu_limit self; gpu_ids := gpu_ids self;
     general_params := general_params self;
     nested_cv_params := nested_cv_params self;
     tuning_params := tuning_params self;
     selection_params := selection_params self;
     lgb_params := lgb_params self;
     cb_params := {| cb_default_params := d;
                     cb_freeze_defaults := cb_freeze_defaults (cb_params self) |};
     reader_params := reader_params self;
     linear_l2_params := linear_l2_params self;
     gbm_pipeline_params := gbm_pipeline_params self;
     linear_pipeline_params := linear_pipeline_params self;
     read_csv_params := read_csv_params self;
     reader := reader self |}.

Definition set_lgb_default_params (d : LgbDefaultParams) (p : LgbParams) : LgbParams :=
  {| lgb_default_params := d; lgb_freeze_defaults := lgb_freeze_defaults p |}.

Definition set_lgb_params (p : LgbParams) (self : TabularAutoML) : TabularAutoML :=
  {| task := task self; cpu_limit := cpu_limit self; gpu_ids := gpu_ids self;
     general_params := general_params self;
     nested_cv_params := nested_cv_params self;
     tuning_params := tuning_params self;
     selection_params := selection_params self;
     lgb_params := p; cb_params := cb_params self;
     reader_params := reader_params self;
     linear_l2_params := linear_l2_params self;
     gbm_pipeline_params := gbm_pipeline_params self;
     linear_pipeline_params := linear_pipeline_params self;
     read_csv_params := read_csv_params self;
     reader := reader self |}.

Definition set_reader_n_jobs (v : Z) (self : TabularAutoML) : TabularAutoML :=
  {| task := task self; cpu_limit := cpu_limit self; gpu_ids := gpu_ids self;
     general_params := general_params self;
     nested_cv_params := nested_cv_params self;
     tuning_params := tuning_params self;
     selection_params := selection_params self;
     lgb_params := lgb_params self; cb_params := cb_params self;
     reader_params := {| n_jobs := v; reader_cv := reader_cv (reader_params self) |};
     linear_l2_params := linear_l2_params self;
     gbm_pipeline_params := gbm_pipeline_params self;
     linear_pipeline_params := linear_pipeline_params self;
     read_csv_params := read_csv_params self;
     reader := reader self |}.

(** ** The relative-cost table [_time_scores] *)

Definition _time_scores : gmap string Q :=
  list_to_map
    [ ("lgb", 1%Q); ("lgb_tuned", 3%Q); ("linear_l2", 7 # 10);
      ("cb", 2%Q); ("cb_tuned", 6%Q) ].

(** ** [TabularAutoML.infer_auto_params] *)

(** What the process observes of the hardware:
    [torch.cuda.device_count()] and [os.cpu_count()]. *)
Record Hardware := {
  cuda_device_count : nat;
  os_cpu_count : Z }.

(** Truth value of [gpu_ids]: [None] and the empty string are falsy. *)
Definition gpu_ids_truthy (g : option string) : bool :=
  match g with
  | None => false
  | Some s => negb (String.eqb s "")
  end.

(** [','.join(list(map(str, range(gpu_cnt))))] *)
Definition all_gpu_ids (gpu_cnt : nat) : string :=
  String.concat "," (map (fun i : nat => pretty i) (seq 0 gpu_cnt)).

Definition infer_tuning_iter (length : Z) (self : TabularAutoML) : TabularAutoML :=
  match max_tuning_iter (tuning_params self) with
  | Auto =>
      if length <? 10000 then set_max_tuning_iter (Fixed 100) self
      else if length <? 30000 then set_max_tuning_iter (Fixed 50) self
      else if length <? 100000 then set_max_tuning_iter (Fixed 10) self
      else set_max_tuning_iter (Fixed 5) self
  | Fixed _ => self
  end.

Definition infer_use_algos (multilevel_avail : bool) (self : TabularAutoML) : TabularAutoML :=
  match use_algos (general_params self) with
  | Auto =>
      let first := [["lgb"; "lgb_tuned"; "linear_l2"; "cb"; "cb_tuned"]] in
      if String.eqb (task_name (task self)) "multiclass" && multilevel_avail
      then set_use_algos (Fixed (first ++ [["linear_l2"; "lgb"]])%list) self
      else set_use_algos (Fixed first) self
  | Fixed _ => self
  end.

Definition infer_nested_cv (self : TabularAutoML) : TabularAutoML :=
  if negb (nested_cv (general_params self)) then set_cv 1 self else self.

Definition infer_gpu (hw : Hardware) (self : TabularAutoML) : TabularAutoML :=
  let gpu_cnt := cuda_device_count hw in
  let ids := gpu_ids self in
  if (0 <? Z.of_nat gpu_cnt) && gpu_ids_truthy ids then
    let ids := if bool_decide (ids = Some "all") then all_gpu_ids gpu_cnt
               else default "" ids in
    let d := cb_default_params (cb_params self) in
    set_cb_default_params
      {| task_type := "GPU";
         devices := Some (replace_char "," ":" ids);
         thread_count := thread_count d |} self
  else self.

Definition infer_threads (cpu_cnt : Z) (self : TabularAutoML) : TabularAutoML :=
  let cd := cb_default_params (cb_params self) in
  let self := set_cb_default_params
                {| task_type := task_type cd; devices := devices cd;
                   thread_count := Z.min (thread_count cd) cpu_cnt |} self in
  let ld := lgb_default_params (lgb_params self) in
  let self := set_lgb_params
                (set_lgb_default_params
                   {| num_threads := Z.min (num_threads ld) cpu_cnt;
                      feature_fraction := feature_fraction ld |}
                   (lgb_params self)) self in
  set_reader_n_jobs (Z.min (n_jobs (reader_params self)) cpu_cnt) self.

(** The method mutates [self] and calls [torch.set_num_threads]; the result
    is the updated instance and the thread count handed to torch.
    [length] is [train_data.shape[0]]. *)
Definition infer_auto_params (hw : Hardware) (self : TabularAutoML)
    (length : Z) (multilevel_avail : bool) : TabularAutoML * Z :=
  let self := infer_tuning_iter length self in
  let self := infer_use_algos multilevel_avail self in
  let self := infer_nested_cv self in
  let self := infer_gpu hw self in
  let cpu_cnt := Z.min (os_cpu_count hw) (cpu_limit self) in
  (infer_threads cpu_cnt self, cpu_cnt).

(** ** [TabularAutoML.get_time_score] *)

(** The multiplier chosen on lines [if nested: ...]. *)
Definition fold_mult (self : TabularAutoML) (nested : bool) : Q :=
  if nested then
    match n_folds (nested_cv_params self) with
    | Some k => inject_Z k
    | None => inject_Z (cv (nested_cv_params self))
    end
  else 1%Q.

Definition level_mult (self : TabularAutoML) (n_level : Z) (mult : Q) : Q :=
  if 1 <? n_level
  then (mult * (if skip_conn (general_params self) then 8 # 10 else 1 # 10))%Q
  else mult.

(** The test [model_type in ['cb', 'cb_tuned'] and
    self.cb_params['default_params']['task_type'] == 'GPU']. *)
Definition on_gpu (self : TabularAutoML) (model_type : string) : bool :=
  str_in model_type ["cb"; "cb_tuned"]
  && String.eqb (task_type (cb_default_params (cb_params self))) "GPU".

Definition get_time_score (self : TabularAutoML) (n_level : Z)
    (model_type : string) (nested : option bool) : result Q :=
  let nested := default (nested_cv (general_params self)) nested in
  match _time_scores !! model_type with
  | None => Raise (KeyError model_type)
  | Some score =>
      let mult := fold_mult self nested in
      let mult := level_mult self n_level mult in
      let score := (score * mult)%Q in
      if on_gpu self model_type
      then Ok (score * (1 # 2))%Q
      else Ok score
  end.

(** ** Task timers and the builder monad *)

(** A task timer as issued by [self.timer.get_task_timer(key, score)]. *)
Record TaskTimer := {
  timer_key : string;
  timer_score : Q }.

(** The pipeline timer [self.timer], as far as the builders change it: the
    task timers issued so far, oldest first. *)
Abbreviation PipelineTimer := (list TaskTimer).

(** A builder step: it may raise, and it may issue timers.  Timers issued
    before an exception stay issued, as in Python. *)
Definition Build (A : Type) : Type := PipelineTimer -> result A * PipelineTimer.

Definition ret {A} (a : A) : Build A := fun t => (Ok a, t).

Definition bind {A B} (c : Build A) (k : A -> Build B) : Build B :=
  fun t =>
    match c t with
    | (Ok a, t') => k a t'
    | (Raise e, t') => (Raise e, t')
    end.

Definition raise {A} (e : exn) : Build A := fun t => (Raise e, t).

Definition lift {A} (r : result A) : Build A := fun t => (r, t).

#[global] Instance Build_ret : MRet Build := @ret.
#[global] Instance Build_bind : MBind Build := fun A B k c => bind c k.

Definition get_task_timer (key : string) (score : Q) : Build TaskTimer :=
  fun t =>
    let tm := {| timer_key := key; timer_score := score |} in
    (Ok tm, (t ++ [tm])%list).

(** ** Pipeline objects *)

Inductive MLAlgo : Type :=
| BoostLGBM (timer : TaskTimer) (params : LgbParams)
| BoostCB (timer : TaskTimer) (params : CbParams)
| LinearLBFGS (timer : TaskTimer) (params : Kwargs).

Record OptunaTuner := {
  n_trials : auto_or Z;
  tuner_timeout : Z;
  tuner_fit_on_holdout : bool }.

(** An element of [ml_algos]: a model, or the pair [(model, tuner)]. *)
Inductive TrainableUnit : Type :=
| Plain (model : MLAlgo)
| Tuned (model : MLAlgo) (tuner : OptunaTuner).

Definition unit_model (u : TrainableUnit) : MLAlgo :=
  match u with Plain m => m | Tuned m _ => m end.

Definition algo_timer (m : MLAlgo) : TaskTimer :=
  match m with
  | BoostLGBM t _ => t
  | BoostCB t _ => t
  | LinearLBFGS t _ => t
  end.

Inductive FeaturesPipeline : Type :=
| LGBSimpleFeatures
| LGBAdvancedPipeline (output_categories : bool) (params : Kwargs)
| LinearFeatures (output_categories : bool) (params : Kwargs).

Inductive ImportanceEstimator : Type :=
| NpPermutationImportanceEstimator
| ModelBasedImportanceEstimator.

#[warnings="-register-all"]
Inductive SelectionPipeline : Type :=
| ImportanceCutoffSelector (feats : FeaturesPipeline) (algo : MLAlgo)
    (imp : ImportanceEstimator) (cutoff : Q) (fit_on_holdout : bool)
| NpIterativeFeatureSelector (feats : FeaturesPipeline) (algo : MLAlgo)
    (imp : ImportanceEstimator) (feature_group_size : Z)
    (max_features_cnt_in_result : option Z)
| ComposedSelector (selectors : list SelectionPipeline).

(** The [force_calc] argument of the nested pipeline: one flag for all
    units, or one flag per unit. *)
Inductive ForceCalc : Type :=
| ForceAll (b : bool)
| ForceEach (flags : list bool).

Record NestedTabularMLPipeline := {
  ml_algos : list TrainableUnit;
  force_calc : ForceCalc;
  pre_selection : option SelectionPipeline;
  features_pipeline : FeaturesPipeline;
  nested_kwargs : NestedCvParams }.

(** ** [TabularAutoML.get_selector] *)

Definition get_selector (self : TabularAutoML) (n_level : Z)
    : Build (option SelectionPipeline) :=
  let selection_params := selection_params self in
  let lgb_params :=
    set_lgb_default_params
      {| num_threads := num_threads (lgb_default_params (lgb_params self));
         feature_fraction := 1%Q |}
      (lgb_params self) in
  let mode := mode selection_params in
  if 0 <? mode then
    time_score ← lift (get_time_score self n_level "lgb" (Some false));
    sel_timer_0 ← get_task_timer "lgb" time_score;
    let selection_feats := LGBSimpleFeatures in
    let selection_gbm := BoostLGBM sel_timer_0 lgb_params in
    let importance :=
      if String.eqb (importance_type selection_params) "permutation"
      then NpPermutationImportanceEstimator
      else ModelBasedImportanceEstimator in
    let pre_selector :=
      ImportanceCutoffSelector selection_feats selection_gbm importance
        (cutoff selection_params) (fit_on_holdout selection_params) in
    if mode =? 2 then
      time_score ← lift (get_time_score self n_level "lgb" (Some false));
      sel_timer_1 ← get_task_timer "lgb" time_score;
      let selection_feats := LGBSimpleFeatures in
      let selection_gbm := BoostLGBM sel_timer_1 lgb_params in
      let importance := NpPermutationImportanceEstimator in
      let extra_selector :=
        NpIterativeFeatureSelector selection_feats selection_gbm importance
          (feature_group_size selection_params)
          (max_features_cnt_in_result selection_params) in
      ret (Some (ComposedSelector [pre_selector; extra_selector]))
    else ret (Some pre_selector)
  else ret None.

(** ** [TabularAutoML.get_linear] *)

Definition get_linear (self : TabularAutoML) (n_level : Z)
    (pre_selector : option SelectionPipeline) : Build NestedTabularMLPipeline :=
  time_score ← lift (get_time_score self n_level "linear_l2" None);
  linear_l2_timer ← get_task_timer "reg_l2" time_score;
  let linear_l2_model := LinearLBFGS linear_l2_timer (linear_l2_params self) in
  let linear_l2_feats := LinearFeatures true (linear_pipeline_params self) in
  ret {| ml_algos := [Plain linear_l2_model];
         force_calc := ForceAll true;
         pre_selection := pre_selector;
         features_pipeline := linear_l2_feats;
         nested_kwargs := nested_cv_params self |}.

(** ** [TabularAutoML.get_gbms] *)

(** One pass of the loop body for [(key, force)]; [acc] holds the lists
    [ml_algos] and [force_calc] built so far. *)
Definition gbm_step (self : TabularAutoML) (n_level : Z)
    (acc : list TrainableUnit * list bool) (kf : string * bool)
    : Build (list TrainableUnit * list bool) :=
  let '(key, force) := kf in
  let tuned := str_contains "_tuned" key in
  let algo_key := split_head "_" key in
  time_score ← lift (get_time_score self n_level key None);
  gbm_timer ← get_task_timer algo_key time_score;
  gbm_model ←
    (if String.eqb algo_key "lgb" then ret (BoostLGBM gbm_timer (lgb_params self))
     else if String.eqb algo_key "cb" then ret (BoostCB gbm_timer (cb_params self))
     else raise (ValueError "Wrong algo key"));
  let unit :=
    if tuned then
      Tuned gbm_model
        {| n_trials := max_tuning_iter (tuning_params self);
           tuner_timeout := max_tuning_time (tuning_params self);
           tuner_fit_on_holdout := tuning_fit_on_holdout (tuning_params self) |}
    else Plain gbm_model in
  ret ((fst acc ++ [unit])%list, (snd acc ++ [force])%list).

(** The [for] loop over the zipped pairs. *)
Fixpoint gbm_loop (self : TabularAutoML) (n_level : Z)
    (pairs : list (string * bool)) (acc : list TrainableUnit * list bool)
    : Build (list TrainableUnit * list bool) :=
  match pairs with
  | [] => ret acc
  | kf :: rest =>
      acc' ← gbm_step self n_level acc kf;
      gbm_loop self n_level rest acc'
  end.

(** [zip(keys, [True, False, False, False])] *)
Definition zip_force (keys : list string) : list (string * bool) :=
  zip keys [true; false; false; false].

Definition get_gbms (self : TabularAutoML) (keys : list string) (n_level : Z)
    (pre_selector : option SelectionPipeline) : Build NestedTabularMLPipeline :=
  let gbm_feats := LGBAdvancedPipeline false (gbm_pipeline_params self) in
  acc ← gbm_loop self n_level (zip_force keys) ([], []);
  ret {| ml_algos := fst acc;
         force_calc := ForceEach (snd acc);
         pre_selection := pre_selector;
         features_pipeline := gbm_feats;
         nested_kwargs := nested_cv_params self |}.

(** Vocabulary for the claims about [get_gbms]: the key has an entry in the
    relative-cost table; the part of the key before the first ['_'] is
    neither ['lgb'] nor ['cb']. *)
Definition in_cost_table (key : string) : Prop := is_Some (_time_scores !! key).

Definition known_base (key : string) : Prop :=
  split_head "_" key = "lgb" \/ split_head "_" key = "cb".

Definition wrong_base (key : string) : Prop :=
  split_head "_" key <> "lgb" /\ split_head "_" key <> "cb".

(** The timer keys of the units of a pipeline, in order. *)
Definition unit_timer_keys (p : NestedTabularMLPipeline) : list string :=
  map (fun u => timer_key (algo_timer (unit_model u))) (ml_algos p).

(** The keys that [create_automl] hands to [get_gbms] for one level:
    [[x for x in ['lgb', 'lgb_tuned', 'cb', 'cb_tuned']
      if x in names and x.split('_')[0] in self.task.losses]]. *)
Definition gbm_models (self : TabularAutoML) (names : list string) : list string :=
  List.filter
    (fun x => str_in x names && str_in (split_head "_" x) (task_losses (task self)))
    ["lgb"; "lgb_tuned"; "cb"; "cb_tuned"].

(** ** Data, readers and the parent engine *)

(** A table: its rows in order. *)
Abbreviation Row := (list Q).
Abbreviation DataFrame := (list Row).

(** [ReadableToDf]: a path to a file, arrays keyed by name, or a table that
    is already in memory. *)
Inductive ReadableToDf : Type :=
| FromPath (path : string)
| FromArrays (arrays : gmap string DataFrame)
| FromFrame (df : DataFrame).

Record NumpyDataset := {
  data : list Row;
  features : list string;
  roles : Kwargs }.

Inductive CvIter : Type :=
| CustomIter (name : string).

(** The arguments of one call of the parent's [fit_predict]. *)
Record EngineFitCall := {
  fit_train : ReadableToDf;
  fit_roles : Kwargs;
  fit_cv_iter : option CvIter;
  fit_valid_data : option ReadableToDf }.

(** The arguments of one call of [read_data]. *)
Record ReadCall := {
  read_source : ReadableToDf;
  read_features : option (list string);
  read_cpu_limit : Z;
  read_params : Kwargs }.

(** The functions of other modules that [fit_predict] and [predict] call:
    [read_data] and [read_batch] of the reader package, and the methods
    [fit_predict] and [predict] of the parent class [AutoMLPreset]. *)
Record Collaborators := {
  read_data : ReadCall -> DataFrame * Kwargs;
  read_batch : ReadableToDf -> option (list string) -> Z -> option Z -> Kwargs
               -> list DataFrame;
  super_fit_predict : EngineFitCall -> NumpyDataset;
  super_predict : DataFrame -> option (list string) -> NumpyDataset }.

(** ** [TabularAutoML._get_read_csv_params] *)

Definition numeric_dtypes (r : Reader) : gmap string string :=
  role_dtype <$> filter (fun kv => role_name kv.2 = "Numeric") (reader_roles r).

Definition _get_read_csv_params (self : TabularAutoML) : Kwargs :=
  let '(cols_to_read, dtypes) :=
    match reader self with
    | Some r => (used_features r, numeric_dtypes r)
    | None => ([], ∅)
    end in
  let usecols :=
    if (List.length cols_to_read =? 0)%nat then PyNone else PyStrList cols_to_read in
  <["dtype" := PyStrDict dtypes]> (<["usecols" := usecols]> (read_csv_params self)).

(** ** [TabularAutoML.fit_predict] *)

(** What one run of [fit_predict] does: the [read_data] calls in order, the
    call of the parent's [fit_predict], and the value returned. *)
Record FitPredictRun := {
  run_reads : list ReadCall;
  run_engine_call : EngineFitCall;
  run_result : NumpyDataset }.

Definition fit_predict (C : Collaborators) (self : TabularAutoML)
    (train_data : ReadableToDf) (roles : option Kwargs)
    (train_features : option (list string)) (cv_iter : option CvIter)
    (valid_data : option ReadableToDf)
    (valid_features : option (list string)) : FitPredictRun :=
  let roles := default ∅ roles in
  let read_csv_params' := _get_read_csv_params self in
  let train_call :=
    {| read_source := train_data; read_features := train_features;
       read_cpu_limit := cpu_limit self; read_params := read_csv_params' |} in
  let '(train, upd_roles) := read_data C train_call in
  let roles := if bool_decide (upd_roles = ∅) then roles else upd_roles ∪ roles in
  let valid_reads :=
    match valid_data with
    | Some v =>
        let valid_call :=
          {| read_source := v; read_features := valid_features;
             read_cpu_limit := cpu_limit self;
             read_params := read_csv_params self |} in
        let '(data, _) := read_data C valid_call in
        [valid_call]
    | None => []
    end in
  let call :=
    {| fit_train := FromFrame train; fit_roles := roles;
       fit_cv_iter := cv_iter; fit_valid_data := valid_data |} in
  {| run_reads := train_call :: valid_reads;
     run_engine_call := call;
     run_result := super_fit_predict C call |}.

(** ** [TabularAutoML.predict] *)

(** The branch [batch_size is None and n_jobs == 1]. *)
Definition predict_whole (C : Collaborators) (self : TabularAutoML)
    (data : ReadableToDf) (features_names : option (list string)) : NumpyDataset :=
  let read_csv_params := _get_read_csv_params self in
  let '(df, _) :=
    read_data C {| read_source := data; read_features := features_names;
                   read_cpu_limit := cpu_limit self;
                   read_params := read_csv_params |} in
  super_predict C df features_names.

(** [NumpyDataset(np.concatenate([x.data for x in res], axis=0),
                  features=res[0].features, roles=res[0].roles)];
    [np.concatenate] of no array raises [ValueError]. *)
Definition concat_results (res : list NumpyDataset) : result NumpyDataset :=
  match res with
  | [] => Raise (ValueError "need at least one array to concatenate")
  | r0 :: _ =>
      Ok {| data := concat (map data res);
            features := features r0;
            roles := roles r0 |}
  end.

(** The calls [self.predict(df, features_names)] made per batch leave
    [batch_size] and [n_jobs] at their defaults [None] and [1], so each of
    them takes the first branch: [predict_whole].  The worker pool of the
    [n_jobs != 1] branch returns its results in submission order. *)
Definition predict (C : Collaborators) (self : TabularAutoML)
    (data : ReadableToDf) (features_names : option (list string))
    (batch_size : option Z) (n_jobs : Z) : result NumpyDataset :=
  let read_csv_params := _get_read_csv_params self in
  if bool_decide (batch_size = None) && (n_jobs =? 1) then
    Ok (predict_whole C self data features_names)
  else
    let data_generator :=
      read_batch C data features_names n_jobs batch_size read_csv_params in
    let res :=
      if n_jobs =? 1
      then map (fun df => predict_whole C self (FromFrame df) features_names)
               data_generator
      else map (fun df => predict_whole C self (FromFrame df) features_names)
               data_generator in
    concat_results res.

(** ** [TabularUtilizedAutoML.__init__] *)

Inductive Blender : Type :=
| MeanBlender
| WeightedBlender.

Inductive AutoMLFactory : Type :=
| TabularAutoML_class.

(** [os.path.join] on POSIX paths. *)
Definition ends_with_slash (s : string) : bool :=
  match String.length s with
  | O => false
  | S n => bool_decide (String.get n s = Some "/"%char)
  end.

Definition path_join2 (path b : string) : string :=
  if String.prefix "/" b then b
  else if String.eqb path "" || ends_with_slash path then path ++ b
  else path ++ "/" ++ b.

Definition path_join (a : string) (p : list string) : string :=
  fold_left path_join2 p a.

(** The arguments that [TimeUtilization.__init__] receives. *)
Record TimeUtilization := {
  automl_factory : AutoMLFactory;
  tu_task : Task;
  tu_timeout : Z;
  tu_memory_limit : Z;
  tu_cpu_limit : Z;
  tu_gpu_ids : option string;
  tu_verbose : Z;
  tu_timing_params : option Kwargs;
  configs_list : list string;
  inner_blend : Blender;
  outer_blend : Blender;
  drop_last : bool;
  max_runs_per_config : Z;
  random_state_keys : option Kwargs;
  random_state : Z;
  tu_kwargs : Kwargs }.

Definition default_configs (_base_dir : string) : list string :=
  map (fun x => path_join _base_dir ["tabular_configs"; x])
    [ "conf_0_sel_type_0.yml"; "conf_1_sel_type_1.yml";
      "conf_2_select_mode_1_no_typ.yml"; "conf_3_sel_type_1_no_inter_lgbm.yml";
      "conf_4_sel_type_0_no_int.yml"; "conf_5_sel_type_1_tuning_full.yml";
      "conf_6_sel_type_1_tuning_full_no_int_lgbm.yml" ].

(** The state of the instance after [__init__]: [Some args] when the parent
    initialiser ran with [args], [None] when it did not run and the instance
    has none of the runner's attributes.  The two blenders and the call
    [super().__init__] are statements of the [if configs_list is None] block;
    no statement follows that block. *)
Definition TabularUtilizedAutoML_init (_base_dir : string)
    (task : Task) (timeout memory_limit cpu_limit : Z)
    (gpu_ids : option string) (verbose : Z) (timing_params : option Kwargs)
    (configs_list : option (list string)) (drop_last : bool)
    (max_runs_per_config random_state : Z) (kwargs : Kwargs)
    : option TimeUtilization :=
  match configs_list with
  | None =>
      let configs_list := default_configs _base_dir in
      let inner_blend := MeanBlender in
      let outer_blend := WeightedBlender in
      Some {| automl_factory := TabularAutoML_class;
              tu_task := task; tu_timeout := timeout;
              tu_memory_limit := memory_limit; tu_cpu_limit := cpu_limit;
              tu_gpu_ids := gpu_ids; tu_verbose := verbose;
              tu_timing_params := timing_params;
              configs_list := configs_list;
              inner_blend := inner_blend; outer_blend := outer_blend;
              drop_last := drop_last;
              max_runs_per_config := max_runs_per_config;
              random_state_keys := None;
              random_state := random_state;
              tu_kwargs := kwargs |}
  | Some _ => None
  end.

(** ** Sample instances *)

(** A binary-classification task and an instance configured like the
    default template: tuning iterations and the algorithm set on ['auto'],
    nested cross-validation off, skip connections on. *)
Definition sample_task : Task :=
  {| task_name := "binary"; task_losses := ["lgb"; "cb"; "sklearn"; "torch"] |}.

Definition sample_automl : TabularAutoML :=
  {| task := sample_task;
     cpu_limit := 4;
     gpu_ids := Some "all";
     general_params := {| use_algos := Auto; nested_cv := false; skip_conn := true |};
     nested_cv_params := {| cv := 5; n_folds := None;
                            inner_tune := false; refit_tuner := true |};
     tuning_params := {| max_tuning_iter := Auto; max_tuning_time := 300;
                         tuning_fit_on_holdout := true |};
     selection_params := {| mode := 1; importance_type := "gain";
                            cutoff := 0%Q; fit_on_holdout := true;
                            feature_group_size := 1;
                            max_features_cnt_in_result := None;
                            select_algos := ["linear_l2"; "gbm"] |};
     lgb_params := {| lgb_default_params := {| num_threads := 8;
                                               feature_fraction := 7 # 10 |};
                      lgb_freeze_defaults := false |};
     cb_params := {| cb_default_params := {| task_type := "CPU";
                                             devices := None;
                                             thread_count := 8 |};
                     cb_freeze_defaults := false |};
     reader_params := {| n_jobs := 8; reader_cv := 5 |};
     linear_l2_params := ∅;
     gbm_pipeline_params := ∅;
     linear_pipeline_params := ∅;
     read_csv_params := ∅;
     reader := None |}.

Definition sample_hardware : Hardware :=
  {| cuda_device_count := 0; os_cpu_count := 16 |}.

(** The same instance with a fixed number of nested folds configured. *)
Definition set_n_folds (v : option Z) (self : TabularAutoML) : TabularAutoML :=
  let n := nested_cv_params self in
  {| task := task self; cpu_limit := cpu_limit self; gpu_ids := gpu_ids self;
     general_params := general_params self;
     nested_cv_params := {| cv := cv n; n_folds := v;
                            inner_tune := inner_tune n;
                            refit_tuner := refit_tuner n |};
     tuning_params := tuning_params self;
     selection_params := selection_params self;
     lgb_params := lgb_params self; cb_params := cb_params self;
     reader_params := reader_params self;
     linear_l2_params := linear_l2_params self;
     gbm_pipeline_params := gbm_pipeline_params self;
     linear_pipeline_params := linear_pipeline_params self;
     read_csv_params := read_csv_params self;
     reader := reader self |}.

Definition set_mode (v : Z) (self : TabularAutoML) : TabularAutoML :=
  let p := selection_params self in
  {| task := task self; cpu_limit := cpu_limit self; gpu_ids := gpu_ids self;
     general_params := general_params self;
     nested_cv_params := nested_cv_params self;
     tuning_params := tuning_params self;
     selection_params := {| mode := v; importance_type := importance_type p;
                            cutoff := cutoff p; fit_on_holdout := fit_on_holdout p;
                            feature_group_size := feature_group_size p;
                            max_features_cnt_in_result := max_features_cnt_in_result p;
                            select_algos := select_algos p |};
     lgb_params := lgb_params self; cb_params := cb_params self;
     reader_params := reader_params self;
     linear_l2_params := linear_l2_params self;
     gbm_pipeline_params := gbm_pipeline_params self;
     linear_pipeline_params := linear_pipeline_params self;
     read_csv_params := read_csv_params self;
     reader := reader self |}.

Definition sample_folds : TabularAutoML := set_n_folds (Some 5) sample_automl.

(** ** Vocabulary for the claims about [predict] *)

(** A table that is already in memory is read as it is. *)
Definition reads_frames_through (C : Collaborators) : Prop :=
  forall df fn c p,
    (read_data C {| read_source := FromFrame df; read_features := fn;
                    read_cpu_limit := c; read_params := p |}).1 = df.

(** The parent's [predict] works row by row: one output row per input row,
    computed from that row alone, under fixed features and roles. *)
Definition predicts_row_wise (C : Collaborators) (fn : option (list string)) : Prop :=
  exists (f : Row -> Row) (feats : list string) (rl : Kwargs),
    forall df, super_predict C df fn
               = {| data := map f df; features := feats; roles := rl |}.

(** ** Sample collaborators *)

(** Modelled from the spec: the data-ingestion contract, whose code is in
    the reader package.  [read_data] returns a table in memory as it is,
    the ["data"] entry of named arrays, and no row for a path;
    [read_batch] cuts the table that [read_data] returns into successive
    chunks of [batch_size] rows (of [ceil(rows / n_jobs)] rows when no batch
    size is given). *)
Fixpoint chunks (fuel size : nat) (df : DataFrame) : list DataFrame :=
  match fuel with
  | O => []
  | S fuel' =>
      match df with
      | [] => []
      | _ => take size df :: chunks fuel' size (drop size df)
      end
  end.

Definition sample_read_data (c : ReadCall) : DataFrame * Kwargs :=
  match read_source c with
  | FromFrame df => (df, ∅)
  | FromArrays arrays => (default [] (arrays !! "data"), ∅)
  | FromPath _ => ([], ∅)
  end.

Definition sample_read_batch (data : ReadableToDf) (fn : option (list string))
    (n_jobs : Z) (batch_size : option Z) (params : Kwargs) : list DataFrame :=
  let df := (sample_read_data {| read_source := data; read_features := fn;
                                 read_cpu_limit := 1; read_params := params |}).1 in
  let rows := Z.of_nat (List.length df) in
  let size := default ((rows + n_jobs - 1) / n_jobs) batch_size in
  chunks (List.length df) (Z.to_nat size) df.

(** Modelled from the spec: the parent engine, whose code is in the base
    preset.  A fitted model that predicts for each row the sum of its
    cells. *)
Definition sample_predict (df : DataFrame) (fn : option (list string)) : NumpyDataset :=
  {| data := map (fun r : Row => [fold_right Qplus 0%Q r]) df;
     features := ["Pred_0"];
     roles := ∅ |}.

Definition sample_fit_predict (call : EngineFitCall) : NumpyDataset :=
  match fit_train call with
  | FromFrame df => sample_predict df None
  | _ => sample_predict [] None
  end.

Definition sample_collaborators : Collaborators :=
  {| read_data := sample_read_data;
     read_batch := sample_read_batch;
     super_fit_predict := sample_fit_predict;
     super_predict := sample_predict |}.

(** The same collaborators with a reader that returns one row for a path. *)
Definition sample_collaborators_alt : Collaborators :=
  {| read_data := fun c =>
       match read_source c with
       | FromPath _ => ([[1%Q]], ∅)
       | _ => sample_read_data c
       end;
     read_batch := sample_read_batch;
     super_fit_predict := sample_fit_predict;
     super_predict := sample_predict |}.

Definition sample_frame : DataFrame :=
  [ [1%Q; 2%Q]; [3%Q; 4%Q]; [5%Q; 6%Q] ].

(** ** [TabularAutoML.create_automl] *)

(** [PandasToPandasReader(task=self.task, **self.reader_params)] *)
Record PandasToPandasReader := {
  ptp_task : Task;
  ptp_params : ReaderParams }.

(** The arguments of [self._initialize]; the timer argument is the
    pipeline timer that the builders have been issuing from. *)
Record AutoMLInit := {
  init_reader : PandasToPandasReader;
  init_levels : list (list NestedTabularMLPipeline);
  init_skip_conn : bool;
  init_blender : Blender;
  init_verbose : Z }.

(** [self.general_params['use_algos']] as the loop of [create_automl] reads
    it.  Inference has run before and has replaced ['auto'] by a list. *)
Definition level_names (self : TabularAutoML) : list (list string) :=
  match use_algos (general_params self) with
  | Fixed l => l
  | Auto => []
  end.

(** The test [key in self.selection_params['select_algos'] and
    (self.general_params['skip_conn'] or n == 0)] and the selector chosen
    by it. *)
Definition level_selector (self : TabularAutoML) (key : string) (n : nat)
    (pre_selector : option SelectionPipeline) : option SelectionPipeline :=
  if str_in key (select_algos (selection_params self))
     && (skip_conn (general_params self) || (n =? 0)%nat)
  then pre_selector else None.

(** The body of the loop over [enumerate(use_algos)] for the level with
    index [n] and the algorithm names [names]. *)
Definition build_level (self : TabularAutoML)
    (pre_selector : option SelectionPipeline) (n : nat) (names : list string)
    : Build (list NestedTabularMLPipeline) :=
  lvl ←
    (if str_in "linear_l2" names then
       p ← get_linear self (Z.of_nat n + 1)
             (level_selector self "linear_l2" n pre_selector);
       ret [p]
     else ret []);
  let gbm_models := gbm_models self names in
  if (0 <? List.length gbm_models)%nat then
    p ← get_gbms self gbm_models (Z.of_nat n + 1)
          (level_selector self "gbm" n pre_selector);
    ret (lvl ++ [p])%list
  else ret lvl.

Fixpoint build_levels (self : TabularAutoML)
    (pre_selector : option SelectionPipeline) (n : nat)
    (algos : list (list string)) (levels : list (list NestedTabularMLPipeline))
    : Build (list (list NestedTabularMLPipeline)) :=
  match algos with
  | [] => ret levels
  | names :: rest =>
      lvl ← build_level self pre_selector n names;
      build_levels self pre_selector (S n) rest (levels ++ [lvl])%list
  end.

(** [fit_args] holds the training table, the validation data and the
    cross-validation iterator; [verbose] is [self.verbose].  The result is
    the instance after inference and the arguments of [_initialize]. *)
Definition create_automl (hw : Hardware) (self : TabularAutoML) (verbose : Z)
    (train_data : DataFrame) (valid_data : option ReadableToDf)
    (cv_iter : option CvIter) : Build (TabularAutoML * AutoMLInit) :=
  let multilevel_avail :=
    bool_decide (valid_data = None) && bool_decide (cv_iter = None) in
  let self :=
    (infer_auto_params hw self (Z.of_nat (List.length train_data)) multilevel_avail).1 in
  let reader := {| ptp_task := task self; ptp_params := reader_params self |} in
  pre_selector ← get_selector self 1;
  levels ← build_levels self pre_selector 0 (level_names self) [];
  let blender := WeightedBlender in
  ret (self, {| init_reader := reader;
                init_levels := levels;
                init_skip_conn := skip_conn (general_params self);
                init_blender := blender;
                init_verbose := verbose |}).

(** ** Vocabulary for the properties of the builders *)

Definition set_task_type (v : string) (self : TabularAutoML) : TabularAutoML :=
  let d := cb_default_params (cb_params self) in
  set_cb_default_params
    {| task_type := v; devices := devices d; thread_count := thread_count d |} self.

Definition set_nested_cv (b : bool) (self : TabularAutoML) : TabularAutoML :=
  let g := general_params self in
  set_general_params
    {| use_algos := use_algos g; nested_cv := b; skip_conn := skip_conn g |} self.

Definition set_gpu_ids (v : option string) (self : TabularAutoML) : TabularAutoML :=
  {| task := task self; cpu_limit := cpu_limit self; gpu_ids := v;
     general_params := general_params self;
     nested_cv_params := nested_cv_params self;
     tuning_params := tuning_params self;
     selection_params := selection_params self;
     lgb_params := lgb_params self; cb_params := cb_params self;
     reader_params := reader_params self;
     linear_l2_params := linear_l2_params self;
     gbm_pipeline_params := gbm_pipeline_params self;
     linear_pipeline_params := linear_pipeline_params self;
     read_csv_params := read_csv_params self;
     reader := reader self |}.

(** The tuner that [get_gbms] pairs with a tuned key. *)
Definition tuning_tuner (self : TabularAutoML) : OptunaTuner :=
  {| n_trials := max_tuning_iter (tuning_params self);
     tuner_timeout := max_tuning_time (tuning_params self);
     tuner_fit_on_holdout := tuning_fit_on_holdout (tuning_params self) |}.

(** The unit [u] is what the key [key] asks for: a LightGBM model with the
    instance's [lgb_params] for the base ['lgb'], a CatBoost model with its
    [cb_params] for the base ['cb'], with a timer named after the base;
    paired with the tuner of the tuning section exactly when the key
    contains ['_tuned']. *)
Definition unit_for_key (self : TabularAutoML) (key : string) (u : TrainableUnit) : Prop :=
  timer_key (algo_timer (unit_model u)) = split_head "_" key /\
  (split_head "_" key = "lgb" ->
   unit_model u = BoostLGBM (algo_timer (unit_model u)) (lgb_params self)) /\
  (split_head "_" key = "cb" ->
   unit_model u = BoostCB (algo_timer (unit_model u)) (cb_params self)) /\
  (if str_contains "_tuned" key
   then u = Tuned (unit_model u) (tuning_tuner self)
   else u = Plain (unit_model u)).

(** No comma in a string. *)
Definition comma_free (s : string) : Prop := str_contains "," s = false.

(** The sample instance for a multiclass task. *)
Definition sample_multiclass : TabularAutoML :=
  {| task := {| task_name := "multiclass"; task_losses := ["lgb"; "cb"; "sklearn"] |};
     cpu_limit := cpu_limit sample_automl; gpu_ids := gpu_ids sample_automl;
     general_params := general_params sample_automl;
     nested_cv_params := nested_cv_params sample_automl;
     tuning_params := tuning_params sample_automl;
     selection_params := selection_params sample_automl;
     lgb_params := lgb_params sample_automl; cb_params := cb_params sample_automl;
     reader_params := reader_params sample_automl;
     linear_l2_params := linear_l2_params sample_automl;
     gbm_pipeline_params := gbm_pipeline_params sample_automl;
     linear_pipeline_params := linear_pipeline_params sample_automl;
     read_csv_params := read_csv_params sample_automl;
     reader := reader sample_automl |}.

(** A fitted reader with two numeric columns and one category column. *)
Definition sample_reader : Reader :=
  {| used_features := ["age"; "income"; "city"];
     reader_roles :=
       <["age" := {| role_name := "Numeric"; role_dtype := "float32" |}]>
       (<["income" := {| role_name := "Numeric"; role_dtype := "float64" |}]>
       (<["city" := {| role_name := "Category"; role_dtype := "object" |}]> ∅)) |}.

Definition set_reader (r : option Reader) (self : TabularAutoML) : TabularAutoML :=
  {| task := task self; cpu_limit := cpu_limit self; gpu_ids := gpu_ids self;
     general_params := general_params self;
     nested_cv_params := nested_cv_params self;
     tuning_params := tuning_params self;
     selection_params := selection_params self;
     lgb_params := lgb_params self; cb_params := cb_params self;
     reader_params := reader_params self;
     linear_l2_params := linear_l2_params self;
     gbm_pipeline_params := gbm_pipeline_params self;
     linear_pipeline_params := linear_pipeline_params self;
     read_csv_params := read_csv_params self;
     reader := r |}.

(** The timer keys of the pipelines of a level with the algorithm names
    [names]: the linear pipeline when ['linear_l2'] is named, then the
    boosting pipeline when some boosting key is left for the task. *)
Definition level_timer_keys (self : TabularAutoML) (names : list string)
    : list (list string) :=
  ((if str_in "linear_l2" names then [["reg_l2"]] else []) ++
   (if (0 <? List.length (gbm_models self names))%nat
    then [map (split_head "_") (gbm_models self names)] else []))%list.

(** What the pipelines of the level with index [n] and names [names] are
    like, [ps] being the selector built before the levels: their timer keys
    are those of the level; each got the instance's nested-CV parameters;
    each has no selector or the selector [ps], the latter only at the first
    level or with skip connections. *)
Definition level_like (self : TabularAutoML) (ps : option SelectionPipeline)
    (n : nat) (names : list string) (lvl : list NestedTabularMLPipeline) : Prop :=
  map unit_timer_keys lvl = level_timer_keys self names /\
  Forall (fun p => nested_kwargs p = nested_cv_params self) lvl /\
  Forall (fun p => pre_selection p = None \/
                   (pre_selection p = ps /\
                    (skip_conn (general_params self) = true \/ n = 0%nat))) lvl.

(** The instance with the selection mode and the algorithm set given. *)
Definition sample_two_levels : TabularAutoML :=
  set_skip_conn false
    (set_use_algos (Fixed [["linear_l2"; "cb"]; ["lgb"; "xgb"]; ["xgb"]]) sample_automl).

(** * Properties *)

(** ** The relative-cost table *)

Lemma time_scores_cases mt s :
  _time_scores !! mt = Some s ->
  (mt, s) ∈ [ ("lgb", 1%Q); ("lgb_tuned", 3%Q); ("linear_l2", 7 # 10);
              ("cb", 2%Q); ("cb_tuned", 6%Q) ].
Proof. intros H. apply elem_of_list_to_map_2 in H. exact H. Qed.

Lemma time_score_pos mt s : _time_scores !! mt = Some s -> (0 < s)%Q.
Proof.
  intros H%time_scores_cases.
  repeat (apply elem_of_cons in H as [H|H]; [injection H as -> ->; reflexivity|]).
  by apply elem_of_nil in H.
Qed.

Lemma time_scores_lgb : _time_scores !! "lgb" = Some 1%Q.
Proof. reflexivity. Qed.

Lemma time_scores_linear_l2 : _time_scores !! "linear_l2" = Some (7 # 10).
Proof. reflexivity. Qed.

(** ** Item assignments leave the other sections alone *)

Lemma fold_mult_set_skip_conn b self nested :
  fold_mult (set_skip_conn b self) nested = fold_mult self nested.
Proof. reflexivity. Qed.

Lemma skip_conn_set_skip_conn b self :
  skip_conn (general_params (set_skip_conn b self)) = b.
Proof. reflexivity. Qed.

Lemma infer_tuning_iter_other length self :
  general_params (infer_tuning_iter length self) = general_params self /\
  nested_cv_params (infer_tuning_iter length self) = nested_cv_params self.
Proof.
  unfold infer_tuning_iter.
  destruct (max_tuning_iter (tuning_params self)); [|done].
  repeat case_match; done.
Qed.

Lemma infer_use_algos_other ma self :
  nested_cv (general_params (infer_use_algos ma self)) = nested_cv (general_params self) /\
  skip_conn (general_params (infer_use_algos ma self)) = skip_conn (general_params self) /\
  nested_cv_params (infer_use_algos ma self) = nested_cv_params self /\
  tuning_params (infer_use_algos ma self) = tuning_params self.
Proof.
  unfold infer_use_algos.
  destruct (use_algos (general_params self)); [|done].
  case_match; done.
Qed.

Lemma infer_gpu_other hw self :
  general_params (infer_gpu hw self) = general_params self /\
  nested_cv_params (infer_gpu hw self) = nested_cv_params self /\
  tuning_params (infer_gpu hw self) = tuning_params self.
Proof. unfold infer_gpu. case_match; done. Qed.

Lemma infer_threads_other c self :
  general_params (infer_threads c self) = general_params self /\
  nested_cv_params (infer_threads c self) = nested_cv_params self /\
  tuning_params (infer_threads c self) = tuning_params self.
Proof. done. Qed.

Lemma infer_nested_cv_other self :
  general_params (infer_nested_cv self) = general_params self /\
  n_folds (nested_cv_params (infer_nested_cv self)) = n_folds (nested_cv_params self) /\
  tuning_params (infer_nested_cv self) = tuning_params self.
Proof. unfold infer_nested_cv. case_match; done. Qed.

(** What inference does to the sections that the estimator and the tuner
    read. *)
Lemma infer_auto_params_general hw self length ma :
  nested_cv (general_params (infer_auto_params hw self length ma).1) =
    nested_cv (general_params self) /\
  skip_conn (general_params (infer_auto_params hw self length ma).1) =
    skip_conn (general_params self).
Proof.
  unfold infer_auto_params; cbn [fst].
  rewrite (proj1 (infer_threads_other _ _)), (proj1 (infer_gpu_other _ _)),
    (proj1 (infer_nested_cv_other _)).
  destruct (infer_use_algos_other ma (infer_tuning_iter length self)) as (-> & -> & _).
  by rewrite (proj1 (infer_tuning_iter_other _ _)).
Qed.

Lemma infer_auto_params_n_folds hw self length ma :
  n_folds (nested_cv_params (infer_auto_params hw self length ma).1) =
  n_folds (nested_cv_params self).
Proof.
  unfold infer_auto_params; cbn [fst].
  rewrite (proj1 (proj2 (infer_threads_other _ _))),
    (proj1 (proj2 (infer_gpu_other _ _))),
    (proj1 (proj2 (infer_nested_cv_other _))).
  destruct (infer_use_algos_other ma (infer_tuning_iter length self)) as (_ & _ & -> & _).
  by rewrite (proj2 (infer_tuning_iter_other _ _)).
Qed.

Lemma infer_auto_params_cv hw self length ma :
  cv (nested_cv_params (infer_auto_params hw self length ma).1) =
  if nested_cv (general_params self) then cv (nested_cv_params self) else 1.
Proof.
  unfold infer_auto_params; cbn [fst].
  rewrite (proj1 (proj2 (infer_threads_other _ _))),
    (proj1 (proj2 (infer_gpu_other _ _))).
  unfold infer_nested_cv.
  destruct (infer_use_algos_other ma (infer_tuning_iter length self)) as (-> & _ & E & _).
  rewrite (proj1 (infer_tuning_iter_other _ _)).
  destruct (nested_cv (general_params self)); cbn; [|done].
  by rewrite E, (proj2 (infer_tuning_iter_other _ _)).
Qed.

Lemma infer_auto_params_tuning hw self length ma :
  tuning_params (infer_auto_params hw self length ma).1 =
  tuning_params (infer_tuning_iter length self).
Proof.
  unfold infer_auto_params; cbn [fst].
  rewrite (proj2 (proj2 (infer_threads_other _ _))),
    (proj2 (proj2 (infer_gpu_other _ _))),
    (proj2 (proj2 (infer_nested_cv_other _))).
  by destruct (infer_use_algos_other ma (infer_tuning_iter length self)) as (_ & _ & _ & ->).
Qed.

(** ** [get_time_score] in closed form *)

Lemma get_time_score_known self n mt nested score :
  _time_scores !! mt = Some score ->
  get_time_score self n mt nested =
  let mult := level_mult self n
                (fold_mult self (default (nested_cv (general_params self)) nested)) in
  Ok (if on_gpu self mt then score * mult * (1 # 2) else score * mult)%Q.
Proof.
  intros H. unfold get_time_score. rewrite H. cbn zeta.
  by destruct (on_gpu self mt).
Qed.

Lemma get_time_score_unknown self n mt nested :
  _time_scores !! mt = None ->
  get_time_score self n mt nested = Raise (KeyError mt).
Proof. intros H. unfold get_time_score. by rewrite H. Qed.



(** ** Claims about the time score *)




(** ** Claims about parameter inference *)

(** C4.  Whatever the hardware, the instance and the multilevel flag: when
    the tuning iteration budget is ['auto'], inference sets it from the row
    count alone: below 10000 rows to 100, from 10000 and below 30000 to 50,
    from 30000 and below 100000 to 10, from 100000 on to 5; a budget that is
    already a number stays as it is. *)
Theorem C4_tuning_iter_inference (hw : Hardware) (self : TabularAutoML)
    (length : Z) (ma : bool) :
  let self' := (infer_auto_params hw self length ma).1 in
  (max_tuning_iter (tuning_params self) = Auto ->
     (length < 10000 -> max_tuning_iter (tuning_params self') = Fixed 100) /\
     (10000 <= length < 30000 -> max_tuning_iter (tuning_params self') = Fixed 50) /\
     (30000 <= length < 100000 -> max_tuning_iter (tuning_params self') = Fixed 10) /\
     (100000 <= length -> max_tuning_iter (tuning_params self') = Fixed 5)) /\
  (forall v, max_tuning_iter (tuning_params self) = Fixed v ->
     max_tuning_iter (tuning_params self') = Fixed v).
Proof.
  cbn zeta. rewrite infer_auto_params_tuning. unfold infer_tuning_iter.
  split.
  - intros ->.
    destruct (length <? 10000) eqn:E1; [apply Z.ltb_lt in E1 | apply Z.ltb_ge in E1];
    [ | destruct (length <? 30000) eqn:E2; [apply Z.ltb_lt in E2 | apply Z.ltb_ge in E2];
        [ | destruct (length <? 100000) eqn:E3;
            [apply Z.ltb_lt in E3 | apply Z.ltb_ge in E3] ] ];
    cbn; repeat split; intros; first [reflexivity | lia].
  - intros v Hv. rewrite Hv. exact Hv.
Qed.

(** The theorem at the sample instance, at the row counts 5000, 20000,
    80000 and 500000 and at the three bracket boundaries. *)
Lemma C4_tuning_iter_inference_witness :
  let iter n :=
    max_tuning_iter (tuning_params (infer_auto_params sample_hardware sample_automl n false).1) in
  iter 5000 = Fixed 100 /\ iter 20000 = Fixed 50 /\ iter 80000 = Fixed 10 /\
  iter 500000 = Fixed 5 /\
  iter 9999 = Fixed 100 /\ iter 10000 = Fixed 50 /\ iter 29999 = Fixed 50 /\
  iter 30000 = Fixed 10 /\ iter 99999 = Fixed 10 /\ iter 100000 = Fixed 5.
Proof.
  cbn zeta.
  pose proof (fun n => proj1 (C4_tuning_iter_inference sample_hardware sample_automl n false)
                         eq_refl) as H.
  cbn zeta in H.
  split; [apply (H 5000); lia|].
  split; [apply (H 20000); lia|].
  split; [apply (H 80000); lia|].
  split; [apply (H 500000); lia|].
  split; [apply (H 9999); lia|].
  split; [apply (H 10000); lia|].
  split; [apply (H 29999); lia|].
  split; [apply (H 30000); lia|].
  split; [apply (H 99999); lia|].
  apply (H 100000); lia.
Defined.


(** ** The selector builder *)

Lemma get_time_score_lgb_plain self n :
  get_time_score self n "lgb" (Some false) = Ok (1 * level_mult self n 1)%Q.
Proof. rewrite (get_time_score_known _ _ _ _ _ time_scores_lgb). reflexivity. Qed.

(** C5, as the code has it.  [get_selector] never raises.  A mode of 0 or
    below returns [None] and issues no timer.  Every mode above 0 other than
    2 (mode 1 among them) builds one importance-cutoff selector over a
    LightGBM model with [feature_fraction = 1] and one timer.  Mode 2 builds
    that cutoff selector, then an iterative selector with permutation
    importance over a second model and timer, and returns their composition
    in that order. *)
Theorem C5_get_selector_modes (self : TabularAutoML) (n : Z) (t : PipelineTimer) :
  let sp := selection_params self in
  let tm := {| timer_key := "lgb"; timer_score := (1 * level_mult self n 1)%Q |} in
  let gbm :=
    BoostLGBM tm
      (set_lgb_default_params
         {| num_threads := num_threads (lgb_default_params (lgb_params self));
            feature_fraction := 1%Q |}
         (lgb_params self)) in
  let imp :=
    if String.eqb (importance_type sp) "permutation"
    then NpPermutationImportanceEstimator else ModelBasedImportanceEstimator in
  let cutoff_sel :=
    ImportanceCutoffSelector LGBSimpleFeatures gbm imp (cutoff sp) (fit_on_holdout sp) in
  let iter_sel :=
    NpIterativeFeatureSelector LGBSimpleFeatures gbm NpPermutationImportanceEstimator
      (feature_group_size sp) (max_features_cnt_in_result sp) in
  (mode sp <= 0 -> get_selector self n t = (Ok None, t)) /\
  (0 < mode sp -> mode sp <> 2 ->
     get_selector self n t = (Ok (Some cutoff_sel), t ++ [tm])%list) /\
  (mode sp = 2 ->
     get_selector self n t =
     (Ok (Some (ComposedSelector [cutoff_sel; iter_sel])), t ++ [tm; tm])%list).
Proof.
  cbn zeta. unfold get_selector.
  rewrite get_time_score_lgb_plain.
  unfold mbind, Build_bind, bind, lift, get_task_timer, mret, Build_ret, ret.
  split; [|split].
  - intros H. destruct (0 <? mode _) eqn:E; [apply Z.ltb_lt in E; lia | done].
  - intros H1 H2. destruct (0 <? mode _) eqn:E; [|apply Z.ltb_ge in E; lia].
    destruct (mode _ =? 2) eqn:E2; [apply Z.eqb_eq in E2; lia | done].
  - intros H. rewrite H. cbn. by rewrite <- (assoc_L (++)).
Qed.

(** The theorem at the sample instance with the modes 0, 1, 2 and 3. *)
Lemma C5_get_selector_modes_witness :
  get_selector (set_mode 0 sample_automl) 1 [] = (Ok None, []) /\
  (exists sel tm, get_selector (set_mode 1 sample_automl) 1 [] = (Ok (Some sel), [tm])) /\
  (exists s1 s2 tm, get_selector (set_mode 2 sample_automl) 1 []
                    = (Ok (Some (ComposedSelector [s1; s2])), [tm; tm])) /\
  (exists sel tm, get_selector (set_mode 3 sample_automl) 1 [] = (Ok (Some sel), [tm])).
Proof.
  split; [|split; [|split]].
  - apply (C5_get_selector_modes (set_mode 0 sample_automl) 1 []). cbn; lia.
  - eexists _, _.
    apply (C5_get_selector_modes (set_mode 1 sample_automl) 1 []); cbn; lia.
  - eexists _, _, _.
    apply (C5_get_selector_modes (set_mode 2 sample_automl) 1 []). reflexivity.
  - eexists _, _.
    apply (C5_get_selector_modes (set_mode 3 sample_automl) 1 []); cbn; lia.
Defined.

(** C5 as stated fails outside the modes 0, 1 and 2: mode 3 raises nothing
    and returns the selector that mode 1 returns; mode -1 raises nothing and
    returns [None]. *)
Lemma C5_unknown_mode_raises_nothing :
  raises_ValueError (get_selector (set_mode 3 sample_automl) 1 []).1 = false /\
  get_selector (set_mode 3 sample_automl) 1 [] = get_selector (set_mode 1 sample_automl) 1 [] /\
  is_ok (get_selector (set_mode 3 sample_automl) 1 []).1 = true /\
  get_selector (set_mode (-1) sample_automl) 1 [] = (Ok None, []).
Proof. repeat split; reflexivity. Qed.

(** ** The boosting level builder *)

Lemma known_or_wrong_base key : {known_base key} + {wrong_base key}.
Proof.
  unfold known_base, wrong_base.
  destruct (decide (split_head "_" key = "lgb")); [by left; left|].
  destruct (decide (split_head "_" key = "cb")); [by left; right|].
  by right.
Qed.

Lemma wrong_not_known key : wrong_base key -> ~ known_base key.
Proof. intros [H1 H2] [H|H]; contradiction. Qed.

(** What one pass of the loop body does, by the three kinds of key. *)
Lemma gbm_step_unknown_key self n acc key force t :
  _time_scores !! key = None ->
  gbm_step self n acc (key, force) t = (Raise (KeyError key), t).
Proof.
  intros H. unfold gbm_step, mbind, Build_bind, bind, lift.
  by rewrite (get_time_score_unknown _ _ _ _ H).
Qed.

Lemma gbm_step_wrong_base self n acc key force t :
  in_cost_table key -> wrong_base key ->
  exists tm, gbm_step self n acc (key, force) t
             = (Raise (ValueError "Wrong algo key"), t ++ [tm])%list.
Proof.
  intros [s Hs] [H1 H2].
  unfold gbm_step, mbind, Build_bind, bind, lift, get_task_timer, raise.
  rewrite (get_time_score_known _ _ _ _ _ Hs). cbn zeta.
  apply String.eqb_neq in H1, H2. rewrite H1, H2.
  by eexists.
Qed.

Lemma gbm_step_known_base self n acc key force t :
  in_cost_table key -> known_base key ->
  exists u tm,
    gbm_step self n acc (key, force) t
    = (Ok (acc.1 ++ [u], acc.2 ++ [force]), t ++ [tm])%list /\
    timer_key (algo_timer (unit_model u)) = split_head "_" key.
Proof.
  intros [s Hs] Hk.
  unfold gbm_step, mbind, Build_bind, bind, lift, get_task_timer, raise,
    mret, Build_ret, ret.
  rewrite (get_time_score_known _ _ _ _ _ Hs). cbn zeta.
  destruct Hk as [Hk|Hk]; rewrite Hk; cbn [String.eqb Ascii.eqb Bool.eqb];
    destruct (str_contains "_tuned" key); by eexists _, _.
Qed.

(** The step either raises or appends one unit and the flag, and issues at
    most one timer. *)
Lemma gbm_step_shape self n acc key force t :
  (exists e, (gbm_step self n acc (key, force) t).1 = Raise e /\
     (raises_ValueError (gbm_step self n acc (key, force) t).1 = true ->
        wrong_base key) /\
     (length (gbm_step self n acc (key, force) t).2 <= S (length t))%nat) \/
  (exists u tm,
     gbm_step self n acc (key, force) t
     = (Ok (acc.1 ++ [u], acc.2 ++ [force]), t ++ [tm])%list /\
     timer_key (algo_timer (unit_model u)) = split_head "_" key /\
     in_cost_table key /\ known_base key).
Proof.
  destruct (_time_scores !! key) as [s|] eqn:Hs.
  - assert (in_cost_table key) as Hin by (by exists s).
    destruct (known_or_wrong_base key) as [Hk|Hw].
    + right. destruct (gbm_step_known_base self n acc key force t Hin Hk)
        as (u & tm & E & K).
      by exists u, tm.
    + left. destruct (gbm_step_wrong_base self n acc key force t Hin Hw) as [tm E].
      rewrite E. eexists. split; [done|]. split; [done|].
      cbn. rewrite length_app. cbn. lia.
  - left. rewrite (gbm_step_unknown_key _ _ _ _ _ _ Hs).
    eexists. split; [done|]. split; [done|]. cbn. lia.
Qed.

Lemma gbm_loop_cons self n kf rest acc t :
  gbm_loop self n (kf :: rest) acc t =
  match gbm_step self n acc kf t with
  | (Ok acc', t') => gbm_loop self n rest acc' t'
  | (Raise e, t') => (Raise e, t')
  end.
Proof. reflexivity. Qed.

(** A loop that ends without an exception has appended one unit and one
    flag per pair, in order, and has issued one timer per pair; every key
    was in the table with a known base. *)
Lemma gbm_loop_ok_inv self n pairs : forall acc t acc' t',
  gbm_loop self n pairs acc t = (Ok acc', t') ->
  exists us tms,
    acc' = (acc.1 ++ us, acc.2 ++ pairs.*2)%list /\
    t' = (t ++ tms)%list /\
    length us = length pairs /\ length tms = length pairs /\
    map (fun u => timer_key (algo_timer (unit_model u))) us
    = map (split_head "_") pairs.*1 /\
    Forall in_cost_table pairs.*1 /\ Forall known_base pairs.*1.
Proof.
  induction pairs as [|[key force] rest IH]; intros acc t acc' t' H.
  - injection H as <- <-. exists [], [].
    rewrite !app_nil_r. destruct acc. by repeat split.
  - rewrite gbm_loop_cons in H.
    destruct (gbm_step_shape self n acc key force t)
      as [(e & E & _) | (u & tm & E & K & Hin & Hk)].
    + destruct (gbm_step _ _ _ _ _) as [[?|?] ?]; cbn in E; congruence.
    + rewrite E in H. apply IH in H as (us & tms & -> & -> & L1 & L2 & M & F1 & F2).
      exists (u :: us), (tm :: tms). cbn.
      rewrite <- !(assoc_L (++)). cbn.
      repeat split; try (f_equal; assumption); constructor; assumption.
Qed.

(** Keys of the table with known bases never stop the loop. *)
Lemma gbm_loop_ok self n pairs : forall acc t,
  Forall in_cost_table pairs.*1 -> Forall known_base pairs.*1 ->
  is_ok (gbm_loop self n pairs acc t).1 = true.
Proof.
  induction pairs as [|[key force] rest IH]; intros acc t F1 F2; [done|].
  cbn in F1, F2. apply Forall_cons in F1 as [Hin F1], F2 as [Hk F2].
  rewrite gbm_loop_cons.
  destruct (gbm_step_known_base self n acc key force t Hin Hk) as (u & tm & -> & _).
  by apply IH.
Qed.

(** A [ValueError] comes from a key whose base is wrong. *)
Lemma gbm_loop_value_error_inv self n pairs : forall acc t,
  raises_ValueError (gbm_loop self n pairs acc t).1 = true ->
  Exists wrong_base pairs.*1.
Proof.
  induction pairs as [|[key force] rest IH]; intros acc t H; [done|].
  rewrite gbm_loop_cons in H. cbn.
  destruct (gbm_step_shape self n acc key force t)
    as [(e & E & V & _) | (u & tm & E & _)].
  - apply Exists_cons_hd, V.
    destruct (gbm_step _ _ _ _ _) as [[?|?] ?]; [cbn in E; congruence | exact H].
  - rewrite E in H. apply Exists_cons_tl, (IH _ _ H).
Qed.

(** Among keys of the table, a key with a wrong base raises [ValueError]. *)
Lemma gbm_loop_value_error self n pairs : forall acc t,
  Forall in_cost_table pairs.*1 -> Exists wrong_base pairs.*1 ->
  raises_ValueError (gbm_loop self n pairs acc t).1 = true.
Proof.
  induction pairs as [|[key force] rest IH]; intros acc t F X.
  - by apply Exists_nil in X.
  - cbn in F, X. apply Forall_cons in F as [Hin F].
    rewrite gbm_loop_cons.
    destruct (known_or_wrong_base key) as [Hk|Hw].
    + destruct (gbm_step_known_base self n acc key force t Hin Hk) as (u & tm & -> & _).
      apply IH; [done|].
      apply Exists_cons in X as [X|X]; [|done].
      by destruct (wrong_not_known _ X).
    + by destruct (gbm_step_wrong_base self n acc key force t Hin Hw) as [tm ->].
Qed.

(** The loop issues at most one timer per pair, exception or not. *)
Lemma gbm_loop_timers self n pairs : forall acc t,
  (length (gbm_loop self n pairs acc t).2 <= length t + length pairs)%nat.
Proof.
  induction pairs as [|[key force] rest IH]; intros acc t; [cbn; lia|].
  rewrite gbm_loop_cons.
  destruct (gbm_step_shape self n acc key force t)
    as [(e & E & _ & L) | (u & tm & E & _)].
  - destruct (gbm_step _ _ _ _ _) as [[?|?] ?]; [cbn in E; congruence|].
    cbn in *. lia.
  - rewrite E. specialize (IH (acc.1 ++ [u], acc.2 ++ [force])%list (t ++ [tm])%list).
    rewrite length_app in IH. cbn in *. lia.
Qed.

(** The zipped pairs: only the first four keys take part. *)
Lemma zip_force_take keys : zip_force keys = zip_force (take 4 keys).
Proof. unfold zip_force. symmetry. apply (zip_with_take_l pair keys [true; false; false; false]). Qed.

Lemma zip_force_keys keys : (zip_force keys).*1 = take 4 keys.
Proof.
  rewrite zip_force_take. apply fst_zip.
  rewrite length_take. change (length [true; false; false; false]) with 4%nat. lia.
Qed.

Lemma zip_force_flags keys :
  (zip_force keys).*2 = take (length keys) [true; false; false; false].
Proof.
  unfold zip_force.
  rewrite <- (zip_with_take_r pair keys).
  apply snd_zip. rewrite length_take. lia.
Qed.

Lemma zip_force_length keys : length (zip_force keys) = (length keys `min` 4)%nat.
Proof. unfold zip_force. by rewrite length_zip_with. Qed.

Lemma get_gbms_result self keys n sel t :
  get_gbms self keys n sel t =
  match gbm_loop self n (zip_force keys) ([], []) t with
  | (Ok acc, t') =>
      (Ok {| ml_algos := acc.1; force_calc := ForceEach acc.2;
             pre_selection := sel;
             features_pipeline := LGBAdvancedPipeline false (gbm_pipeline_params self);
             nested_kwargs := nested_cv_params self |}, t')
  | (Raise e, t') => (Raise e, t')
  end.
Proof. reflexivity. Qed.

(** ** What the level builders return *)

(** What [get_linear] returns, for every instance. *)
Lemma get_linear_run self n sel t :
  get_linear self n sel t =
  let tm := {| timer_key := "reg_l2";
               timer_score := ((7 # 10) * level_mult self n
                                 (fold_mult self (nested_cv (general_params self))))%Q |} in
  (Ok {| ml_algos := [Plain (LinearLBFGS tm (linear_l2_params self))];
         force_calc := ForceAll true;
         pre_selection := sel;
         features_pipeline := LinearFeatures true (linear_pipeline_params self);
         nested_kwargs := nested_cv_params self |},
   t ++ [tm])%list.
Proof.
  unfold get_linear, mbind, Build_bind, bind, lift, get_task_timer, mret, Build_ret, ret.
  rewrite (get_time_score_known _ _ _ _ _ time_scores_linear_l2). reflexivity.
Qed.

(** The step for a key of the table with a known base builds the unit that
    the key asks for, on a fresh timer with the key's time score. *)
Lemma gbm_step_unit self n acc key force t :
  in_cost_table key -> known_base key ->
  exists u,
    gbm_step self n acc (key, force) t
    = (Ok (acc.1 ++ [u], acc.2 ++ [force]), t ++ [algo_timer (unit_model u)])%list /\
    unit_for_key self key u /\
    get_time_score self n key None = Ok (timer_score (algo_timer (unit_model u))).
Proof.
  intros [s Hs] Hk.
  unfold gbm_step, mbind, Build_bind, bind, lift, get_task_timer, raise,
    mret, Build_ret, ret, unit_for_key, tuning_tuner.
  rewrite (get_time_score_known _ _ _ _ _ Hs). cbn zeta.
  destruct Hk as [Hk|Hk]; rewrite Hk; cbn [String.eqb Ascii.eqb Bool.eqb];
    destruct (str_contains "_tuned" key);
    match goal with
    | |- exists u, (Ok ((_ ++ [?x])%list, _), _) = _ /\ _ => exists x
    end;
    (split; [reflexivity|]); cbn; repeat split; done.
Qed.

Lemma gbm_loop_units self n pairs : forall acc t,
  Forall in_cost_table pairs.*1 -> Forall known_base pairs.*1 ->
  exists us,
    gbm_loop self n pairs acc t
    = (Ok (acc.1 ++ us, acc.2 ++ pairs.*2),
       t ++ map (fun u => algo_timer (unit_model u)) us)%list /\
    Forall2 (unit_for_key self) pairs.*1 us /\
    Forall2 (fun key u => get_time_score self n key None
                          = Ok (timer_score (algo_timer (unit_model u))))
            pairs.*1 us.
Proof.
  induction pairs as [|[key force] rest IH]; intros acc t F K.
  - exists []. cbn. rewrite !app_nil_r. destruct acc. by repeat split.
  - cbn in F, K. apply Forall_cons in F as [Hin F], K as [Hk K].
    rewrite gbm_loop_cons.
    destruct (gbm_step_unit self n acc key force t Hin Hk) as (u & -> & U & S).
    destruct (IH (acc.1 ++ [u], acc.2 ++ [force])%list
                 (t ++ [algo_timer (unit_model u)])%list F K) as (us & -> & Us & Ss).
    exists (u :: us). cbn. rewrite <- !(assoc_L (++)). cbn.
    split; [reflexivity|]. split; by constructor.
Qed.


(** ** Claims about [get_gbms] *)

(** C10.  Only the first four requested keys take part: the builder returns
    for any key sequence what it returns for its first four keys, result and
    issued timers alike, so a later key yields no unit, no timer and no
    exception.  No call issues more than four timers, and a call that
    returns builds [min (len keys) 4] units with as many timers. *)
Theorem C10_at_most_four_units (self : TabularAutoML) (keys : list string)
    (n : Z) (sel : option SelectionPipeline) (t : PipelineTimer) :
  get_gbms self keys n sel t = get_gbms self (take 4 keys) n sel t /\
  (length (get_gbms self keys n sel t).2 <= length t + 4)%nat /\
  (forall p t', get_gbms self keys n sel t = (Ok p, t') ->
     length (ml_algos p) = (length keys `min` 4)%nat /\
     (length (ml_algos p) <= 4)%nat /\
     exists tms, t' = (t ++ tms)%list /\ length tms = (length keys `min` 4)%nat).
Proof.
  split; [|split].
  - rewrite !get_gbms_result. by rewrite <- zip_force_take.
  - rewrite get_gbms_result.
    pose proof (gbm_loop_timers self n (zip_force keys) ([], []) t) as L.
    rewrite zip_force_length in L.
    destruct (gbm_loop _ _ _ _ _) as [[acc|e] t'']; cbn in *; lia.
  - intros p t'. rewrite get_gbms_result.
    destruct (gbm_loop _ _ _ _ _) as [[acc|e] t''] eqn:E; [|done].
    intros [= <- <-]. cbn [ml_algos].
    apply gbm_loop_ok_inv in E as (us & tms & -> & -> & L1 & L2 & _).
    rewrite zip_force_length in L1, L2. cbn [fst app].
    split; [done|]. split; [lia|]. by exists tms.
Qed.

(** The theorem at a request of six keys, the last two of which have no
    entry in the table and no known base. *)
Lemma C10_at_most_four_units_witness :
  exists p tms,
    get_gbms sample_automl ["lgb"; "lgb_tuned"; "cb"; "cb_tuned"; "xgb"; "linear_l2"] 1 None []
    = (Ok p, tms) /\
    length (ml_algos p) = 4%nat /\ length tms = 4%nat.
Proof.
  destruct (get_gbms sample_automl
              ["lgb"; "lgb_tuned"; "cb"; "cb_tuned"; "xgb"; "linear_l2"] 1 None [])
    as [[p|e] tms] eqn:E; [|discriminate E].
  exists p, tms. split; [reflexivity|].
  destruct (C10_at_most_four_units sample_automl
              ["lgb"; "lgb_tuned"; "cb"; "cb_tuned"; "xgb"; "linear_l2"] 1 None [])
    as (_ & _ & H).
  destruct (H p tms E) as (L & _ & tms' & -> & L').
  split; [exact L | exact L'].
Defined.

(** Keys of the table with known bases make the builder return. *)
Lemma get_gbms_returns (self : TabularAutoML) (keys : list string)
    (n : Z) (sel : option SelectionPipeline) (t : PipelineTimer) :
  Forall in_cost_table (take 4 keys) -> Forall known_base (take 4 keys) ->
  exists p t', get_gbms self keys n sel t = (Ok p, t').
Proof.
  intros F K. rewrite get_gbms_result.
  rewrite <- zip_force_keys in F, K.
  pose proof (gbm_loop_ok self n _ ([], []) t F K) as H.
  destruct (gbm_loop _ _ _ _ _) as [[acc|e] t'']; [|done].
  by eexists _, _.
Qed.

(** C7.  For a non-empty request whose first four keys are boosting keys
    of the table the builder returns; and whenever it returns on a non-empty
    request, the flags handed to the pipeline are [True] followed by [False]
    only, one flag per built unit, and the units stand in the order of the
    first four requested keys: the unit built from the first key has the
    [True] flag, every later unit has [False]. *)
Theorem C7_force_calc_first_only (self : TabularAutoML) (keys : list string)
    (n : Z) (sel : option SelectionPipeline) (t : PipelineTimer) :
  keys <> [] ->
  (Forall in_cost_table (take 4 keys) -> Forall known_base (take 4 keys) ->
   exists p t', get_gbms self keys n sel t = (Ok p, t')) /\
  (forall p t',
     get_gbms self keys n sel t = (Ok p, t') ->
     exists m : nat,
       force_calc p = ForceEach (true :: replicate m false) /\
       length (ml_algos p) = S m /\
       S m = (length keys `min` 4)%nat /\
       unit_timer_keys p = map (split_head "_") (take 4 keys)).
Proof.
  intros Hne. split; [apply get_gbms_returns|].
  intros p t'. rewrite get_gbms_result.
  destruct (gbm_loop _ _ _ _ _) as [[acc|e] t''] eqn:E; [|done].
  intros [= <- <-]. unfold unit_timer_keys. cbn [ml_algos force_calc].
  apply gbm_loop_ok_inv in E as (us & tms & -> & -> & L1 & _ & M & _).
  rewrite zip_force_length in L1. rewrite zip_force_keys in M.
  rewrite zip_force_flags. cbn [fst snd app].
  destruct keys as [|k0 [|k1 [|k2 [|k3 rest]]]]; [done|..].
  - exists 0%nat. by repeat split.
  - exists 1%nat. by repeat split.
  - exists 2%nat. by repeat split.
  - exists 3%nat. cbn [length] in *.
    split; [by rewrite take_ge by (cbn; lia)|].
    split; [lia|]. split; [lia|]. exact M.
Qed.

(** The theorem at the request [["lgb"; "cb_tuned"; "cb"]]. *)
Lemma C7_force_calc_first_only_witness :
  exists p t',
    get_gbms sample_automl ["lgb"; "cb_tuned"; "cb"] 1 None [] = (Ok p, t') /\
    force_calc p = ForceEach [true; false; false] /\
    unit_timer_keys p = ["lgb"; "cb"; "cb"].
Proof.
  destruct (C7_force_calc_first_only sample_automl ["lgb"; "cb_tuned"; "cb"]
              1 None []) as [R Hflags]; [discriminate|].
  destruct R as (p & t' & E).
  - repeat (constructor; [eexists; reflexivity|]). constructor.
  - constructor; [left; reflexivity|].
    constructor; [right; reflexivity|].
    constructor; [right; reflexivity|]. constructor.
  - exists p, t'. split; [exact E|].
    destruct (Hflags p t' E) as (m & F & L & Lm & K).
    injection Lm as ->.
    split; [exact F | exact K].
Defined.

(** C6, as the code has it.  A [ValueError] is always due to one of the
    first four keys having a base that is neither ['lgb'] nor ['cb'].  When
    each of the first four keys has an entry in the relative-cost table, the
    builder raises [ValueError] exactly when one of these keys has such a
    base, and returns without an exception exactly when each of them has the
    base ['lgb'] or ['cb'].  Keys after the fourth are not looked at.  The
    builder only constructs models and timers; it trains nothing. *)
Theorem C6_get_gbms_value_error (self : TabularAutoML) (keys : list string)
    (n : Z) (sel : option SelectionPipeline) (t : PipelineTimer) :
  Forall in_cost_table (take 4 keys) ->
  (raises_ValueError (get_gbms self keys n sel t).1 = true
   <-> Exists wrong_base (take 4 keys)) /\
  (is_ok (get_gbms self keys n sel t).1 = true
   <-> Forall known_base (take 4 keys)).
Proof.
  intros F. rewrite get_gbms_result.
  rewrite <- zip_force_keys in F |- *.
  split; split.
  - intros H. apply (gbm_loop_value_error_inv self n _ ([], []) t).
    by destruct (gbm_loop _ _ _ _ _) as [[acc|e] t''].
  - intros X. pose proof (gbm_loop_value_error self n _ ([], []) t F X) as H.
    by destruct (gbm_loop _ _ _ _ _) as [[acc|e] t''].
  - destruct (gbm_loop _ _ _ _ _) as [[acc|e] t''] eqn:E; [|done].
    intros _. by apply gbm_loop_ok_inv in E as (us & tms & _ & _ & _ & _ & _ & _ & K).
  - intros K. pose proof (gbm_loop_ok self n _ ([], []) t F K) as H.
    by destruct (gbm_loop _ _ _ _ _) as [[acc|e] t''].
Qed.

(** The theorem at the requests [["lgb"; "linear_l2"]], which raises, and
    [["lgb"; "cb_tuned"]], which returns. *)
Lemma C6_get_gbms_value_error_witness :
  raises_ValueError (get_gbms sample_automl ["lgb"; "linear_l2"] 1 None []).1 = true /\
  is_ok (get_gbms sample_automl ["lgb"; "cb_tuned"] 1 None []).1 = true.
Proof.
  split.
  - apply (C6_get_gbms_value_error sample_automl ["lgb"; "linear_l2"] 1 None []).
    + repeat constructor; eexists; reflexivity.
    + apply Exists_cons_tl, Exists_cons_hd. split; discriminate.
  - apply (C6_get_gbms_value_error sample_automl ["lgb"; "cb_tuned"] 1 None []).
    + repeat constructor; eexists; reflexivity.
    + constructor; [left; reflexivity|].
      constructor; [right; reflexivity|]. constructor.
Defined.

(** C6 as stated fails in two ways.  A key with a wrong base that stands
    after the fourth key raises nothing.  A key that has no entry in the
    relative-cost table stops the builder with a [KeyError] from the score
    lookup, whatever its base: ["xgb"] has a wrong base and raises no
    [ValueError]; ["lgb_fast"] has the base ['lgb'] and still raises. *)
Lemma C6_value_error_not_iff_wrong_base :
  (Exists wrong_base ["lgb"; "lgb"; "lgb"; "lgb"; "linear_l2"] /\
   is_ok (get_gbms sample_automl ["lgb"; "lgb"; "lgb"; "lgb"; "linear_l2"] 1 None []).1
   = true) /\
  (Exists wrong_base ["xgb"] /\
   raises_ValueError (get_gbms sample_automl ["xgb"] 1 None []).1 = false /\
   get_gbms sample_automl ["xgb"] 1 None [] = (Raise (KeyError "xgb"), [])) /\
  (Forall known_base ["lgb_fast"] /\
   is_ok (get_gbms sample_automl ["lgb_fast"] 1 None []).1 = false).
Proof.
  split; [|split].
  - split; [|reflexivity].
    do 4 apply Exists_cons_tl. apply Exists_cons_hd. split; discriminate.
  - split; [|split; reflexivity].
    apply Exists_cons_hd. split; discriminate.
  - split; [|reflexivity].
    constructor; [left; reflexivity | constructor].
Qed.

(** The keys that [create_automl] builds for a level are among the four
    boosting keys, so its own calls of [get_gbms] return. *)
Lemma gbm_models_never_raise (self : TabularAutoML) (names : list string)
    (n : Z) (sel : option SelectionPipeline) (t : PipelineTimer) :
  is_ok (get_gbms self (gbm_models self names) n sel t).1 = true.
Proof.
  assert (Forall (fun k => in_cost_table k /\ known_base k) (gbm_models self names)) as F.
  { unfold gbm_models. apply Forall_forall. intros k Hk.
    apply list_elem_of_In, filter_In in Hk as [Hk _].
    cbn in Hk. unfold known_base.
    destruct Hk as [<-|[<-|[<-|[<-|[]]]]]; (split; [eexists; reflexivity|]);
      first [by left | by right]. }
  rewrite get_gbms_result.
  assert (is_ok (gbm_loop self n (zip_force (gbm_models self names)) ([], []) t).1 = true) as H.
  { apply gbm_loop_ok; rewrite zip_force_keys; apply Forall_take;
      eapply Forall_impl; try exact F; by intros k []. }
  by destruct (gbm_loop _ _ _ _ _) as [[acc|e] t''].
Qed.

(** ** Claims about [fit_predict] and [predict] *)

Lemma predict_whole_eq C self data fn :
  predict_whole C self data fn =
  super_predict C
    (read_data C {| read_source := data; read_features := fn;
                    read_cpu_limit := cpu_limit self;
                    read_params := _get_read_csv_params self |}).1 fn.
Proof. unfold predict_whole. by destruct (read_data C _). Qed.

Lemma concat_map_map {A B} (f : A -> B) (ls : list (list A)) :
  concat (map (map f) ls) = map f (concat ls).
Proof.
  induction ls as [|l ls IH]; [done|].
  cbn. by rewrite IH, map_app.
Qed.

(** C8, as the code has it.  Let the reader hand a table in memory through
    unchanged and let the parent's [predict] work row by row.  For every
    data source and batch size for which the batches cover the rows of the
    source in order and there is at least one batch, [predict] with that
    batch size and [n_jobs = 1] returns what [predict] without a batch size
    returns on the whole source. *)
Theorem C8_batched_predict_agrees (C : Collaborators) (self : TabularAutoML)
    (source : ReadableToDf) (fn : option (list string)) (bs : Z) :
  reads_frames_through C ->
  predicts_row_wise C fn ->
  let batches := read_batch C source fn 1 (Some bs) (_get_read_csv_params self) in
  concat batches
  = (read_data C {| read_source := source; read_features := fn;
                    read_cpu_limit := cpu_limit self;
                    read_params := _get_read_csv_params self |}).1 ->
  batches <> [] ->
  predict C self source fn (Some bs) 1 = predict C self source fn None 1.
Proof.
  intros Hthru (f & feats & rl & Hrow). cbn zeta. intros Hcover Hne.
  unfold predict. cbn [bool_decide decide_rel andb Z.eqb Pos.eqb].
  rewrite bool_decide_eq_false_2 by discriminate.
  rewrite bool_decide_eq_true_2 by reflexivity. cbn [andb].
  rewrite predict_whole_eq, <- Hcover, Hrow.
  destruct (read_batch C source fn 1 (Some bs) (_get_read_csv_params self))
    as [|b0 rest]; [done|].
  unfold concat_results. cbn [map].
  rewrite !predict_whole_eq, !Hthru, !Hrow. cbn [features roles data].
  assert (map data (map (fun df => predict_whole C self (FromFrame df) fn) rest)
          = map (map f) rest) as ->.
  { clear Hcover Hne. induction rest as [|b rest IH]; [done|].
    cbn [map]. by rewrite predict_whole_eq, Hthru, Hrow, IH. }
  by rewrite <- concat_map_map.
Qed.

(** The theorem at the sample collaborators: three rows in batches of two. *)
Lemma C8_batched_predict_agrees_witness :
  predict sample_collaborators sample_automl (FromFrame sample_frame) None (Some 2) 1
  = predict sample_collaborators sample_automl (FromFrame sample_frame) None None 1.
Proof.
  apply (C8_batched_predict_agrees sample_collaborators sample_automl
           (FromFrame sample_frame) None 2).
  - intros df fn c p. reflexivity.
  - exists (fun r : Row => [fold_right Qplus 0%Q r]), ["Pred_0"], ∅.
    intros df. reflexivity.
  - reflexivity.
  - discriminate.
Defined.

(** C8 as stated fails for the table without rows, whose batches are none:
    with a batch size [predict] raises, since there is nothing to
    concatenate, while without a batch size it returns the empty
    prediction. *)
Lemma C8_no_batch_raises :
  let C := sample_collaborators in
  reads_frames_through C /\
  predicts_row_wise C None /\
  read_batch C (FromFrame []) None 1 (Some 100) (_get_read_csv_params sample_automl) = [] /\
  concat (read_batch C (FromFrame []) None 1 (Some 100) (_get_read_csv_params sample_automl))
  = (read_data C {| read_source := FromFrame []; read_features := None;
                    read_cpu_limit := cpu_limit sample_automl;
                    read_params := _get_read_csv_params sample_automl |}).1 /\
  predict C sample_automl (FromFrame []) None (Some 100) 1
  = Raise (ValueError "need at least one array to concatenate") /\
  predict C sample_automl (FromFrame []) None None 1
  = Ok {| data := []; features := ["Pred_0"]; roles := ∅ |}.
Proof.
  cbn zeta. split; [|split; [|split; [|split; [|split]]]]; try reflexivity.
  - intros df fn c p. reflexivity.
  - exists (fun r : Row => [fold_right Qplus 0%Q r]), ["Pred_0"], ∅.
    intros df. reflexivity.
Qed.

(** C9.  When validation data is given, [fit_predict] reads it (with the
    instance's own [read_csv_params]) after the training data, and drops
    what was read: the parent's [fit_predict] receives the validation data
    as the caller passed it, and the training data as the table that
    [read_data] returned.  The call of the parent does not depend on what
    the reader returns for any other call than that for the training
    data. *)
Theorem C9_valid_data_forwarded_as_given (C : Collaborators) (self : TabularAutoML)
    (train_data : ReadableToDf) (rl : option Kwargs)
    (train_features : option (list string)) (cv_iter : option CvIter)
    (valid_data : ReadableToDf) (valid_features : option (list string)) :
  let run := fit_predict C self train_data rl train_features cv_iter
               (Some valid_data) valid_features in
  let train_call :=
    {| read_source := train_data; read_features := train_features;
       read_cpu_limit := cpu_limit self;
       read_params := _get_read_csv_params self |} in
  let valid_call :=
    {| read_source := valid_data; read_features := valid_features;
       read_cpu_limit := cpu_limit self;
       read_params := read_csv_params self |} in
  run_reads run = [train_call; valid_call] /\
  fit_valid_data (run_engine_call run) = Some valid_data /\
  fit_train (run_engine_call run) = FromFrame (read_data C train_call).1 /\
  fit_cv_iter (run_engine_call run) = cv_iter /\
  run_result run = super_fit_predict C (run_engine_call run) /\
  (forall C' : Collaborators,
     read_data C' train_call = read_data C train_call ->
     run_engine_call (fit_predict C' self train_data rl train_features cv_iter
                        (Some valid_data) valid_features)
     = run_engine_call run).
Proof.
  cbn zeta. unfold fit_predict.
  destruct (read_data C {| read_source := train_data |}) as [train upd] eqn:Et.
  destruct (read_data C {| read_source := valid_data |}) as [vd vr] eqn:Ev.
  cbn [run_reads run_engine_call run_result fit_valid_data fit_train fit_cv_iter fst].
  repeat split.
  intros C' Hagree. rewrite Hagree.
  by destruct (read_data C' {| read_source := valid_data |}).
Qed.

(** The theorem at a training table in memory and a validation file given
    by its path: the engine receives the path, whichever rows a reader
    returns for it. *)
Lemma C9_valid_data_forwarded_as_given_witness :
  fit_valid_data
    (run_engine_call
       (fit_predict sample_collaborators_alt sample_automl (FromFrame sample_frame)
          None None None (Some (FromPath "valid.csv")) None))
  = Some (FromPath "valid.csv") /\
  run_engine_call
    (fit_predict sample_collaborators_alt sample_automl (FromFrame sample_frame)
       None None None (Some (FromPath "valid.csv")) None)
  = run_engine_call
      (fit_predict sample_collaborators sample_automl (FromFrame sample_frame)
         None None None (Some (FromPath "valid.csv")) None).
Proof.
  split.
  - apply (C9_valid_data_forwarded_as_given sample_collaborators_alt sample_automl
             (FromFrame sample_frame) None None None (FromPath "valid.csv") None).
  - apply (C9_valid_data_forwarded_as_given sample_collaborators sample_automl
             (FromFrame sample_frame) None None None (FromPath "valid.csv") None).
    reflexivity.
Defined.

(** ** Claims about [TabularUtilizedAutoML] *)

(** C1, at the code.  With a list of configurations supplied by the caller
    the parent initialiser is not called: the runner is left without a
    configuration list and without blenders.  Only without a supplied list
    is the runner initialised, over the seven default configurations in
    order, with the mean blender inside and the weighted blender outside. *)
Theorem C1_supplied_configs_leave_runner_uninitialised
    (base : string) (tk : Task) (timeout memory_limit cpu : Z)
    (gpu : option string) (verbose : Z) (timing : option Kwargs)
    (dl : bool) (runs rs : Z) (kw : Kwargs) :
  (forall configs : list string,
     TabularUtilizedAutoML_init base tk timeout memory_limit cpu gpu verbose
       timing (Some configs) dl runs rs kw = None) /\
  TabularUtilizedAutoML_init "/pkg/presets" sample_task 3600 16 4 None 2 None
    (Some ["conf_a.yml"; "conf_b.yml"]) true 5 42 ∅ = None /\
  (exists r,
     TabularUtilizedAutoML_init base tk timeout memory_limit cpu gpu verbose
       timing None dl runs rs kw = Some r /\
     configs_list r = default_configs base /\
     length (configs_list r) = 7%nat /\
     inner_blend r = MeanBlender /\ outer_blend r = WeightedBlender /\
     automl_factory r = TabularAutoML_class /\
     drop_last r = dl /\ max_runs_per_config r = runs).
Proof.
  split; [done|]. split; [done|].
  eexists. split; [reflexivity|]. by repeat split.
Qed.

(** ** Nested cross-validation switched off *)

(** C3, as the code has it.  When nested cross-validation is globally
    disabled, inference sets the [cv] entry of the nested-CV section to 1
    whatever it was, and leaves the [n_folds] entry as configured.
    Afterwards every estimate that takes the nested flag from the global
    setting (as the linear and the boosting builder do) or passes [False]
    (as the selector builder does) has fold multiplier 1, and every pipeline
    built by [get_linear] or [get_gbms] receives [cv = 1] and the [n_folds]
    entry as configured.  An estimate asked for with [nested=True] has fold
    multiplier 1 when no [n_folds] is configured, and the configured
    [n_folds] otherwise.

    The multipliers are stated on the value [get_time_score] returns: for a
    model type with table score [score], [estimate m n mt score] below is
    [score] times the fold multiplier [m], times 8/10 or 1/10 above the
    first level, halved for CatBoost on GPU.  [get_time_score] returns
    [estimate 1] when the nested flag is absent or [False], and
    [estimate folds] when it is [True], where [folds] is the configured
    [n_folds], or 1 without one.  The timer that [get_linear] issues and the
    timers of the units that [get_gbms] builds carry [estimate 1]. *)
Theorem C3_nested_cv_disabled (hw : Hardware) (self : TabularAutoML)
    (length : Z) (ma : bool) :
  nested_cv (general_params self) = false ->
  let self' := (infer_auto_params hw self length ma).1 in
  let folds : Q :=
    match n_folds (nested_cv_params self) with
    | Some k => inject_Z k
    | None => 1%Q
    end in
  let estimate (m : Q) (n : Z) (mt : string) (score : Q) : Q :=
    let s := (score * (if 1 <? n
                       then m * (if skip_conn (general_params self)
                                 then 8 # 10 else 1 # 10)
                       else m))%Q in
    if on_gpu self' mt then (s * (1 # 2))%Q else s in
  cv (nested_cv_params self') = 1 /\
  n_folds (nested_cv_params self') = n_folds (nested_cv_params self) /\
  (forall nested, nested <> Some true ->
     fold_mult self' (default (nested_cv (general_params self')) nested) = 1%Q) /\
  (forall n mt nested, nested <> Some true ->
     get_time_score self' n mt nested = get_time_score self' n mt (Some false)) /\
  fold_mult self' true =
    match n_folds (nested_cv_params self) with
    | Some k => inject_Z k
    | None => 1%Q
    end /\
  (forall n sel t p t',
     get_linear self' n sel t = (Ok p, t') ->
     cv (nested_kwargs p) = 1 /\
     n_folds (nested_kwargs p) = n_folds (nested_cv_params self)) /\
  (forall keys n sel t p t',
     get_gbms self' keys n sel t = (Ok p, t') ->
     cv (nested_kwargs p) = 1 /\
     n_folds (nested_kwargs p) = n_folds (nested_cv_params self) /\
     Forall2 (fun key u =>
                exists score, _time_scores !! key = Some score /\
                  timer_score (algo_timer (unit_model u)) = estimate 1%Q n key score)
             (take 4 keys) (ml_algos p)) /\
  (forall n mt score nested,
     nested <> Some true -> _time_scores !! mt = Some score ->
     get_time_score self' n mt nested = Ok (estimate 1%Q n mt score)) /\
  (forall n mt score,
     _time_scores !! mt = Some score ->
     get_time_score self' n mt (Some true) = Ok (estimate folds n mt score)) /\
  (forall n sel t,
     exists p,
       get_linear self' n sel t
       = (Ok p, (t ++ [{| timer_key := "reg_l2";
                          timer_score := estimate 1%Q n "linear_l2" (7 # 10) |}])%list) /\
       cv (nested_kwargs p) = 1 /\
       n_folds (nested_kwargs p) = n_folds (nested_cv_params self)).
Proof.
  intros Hoff. cbn zeta.
  pose proof (infer_auto_params_cv hw self length ma) as Hcv.
  rewrite Hoff in Hcv.
  pose proof (infer_auto_params_n_folds hw self length ma) as Hnf.
  destruct (infer_auto_params_general hw self length ma) as [Hn Hsk].
  rewrite Hoff in Hn.
  set (self' := (infer_auto_params hw self length ma).1) in *.
  assert (forall nested, nested <> Some true ->
            default (nested_cv (general_params self')) nested = false) as Hd.
  { intros [[|]|] Hne; [congruence | reflexivity | exact Hn]. }
  assert (forall n mt score nested,
            nested <> Some true -> _time_scores !! mt = Some score ->
            get_time_score self' n mt nested
            = Ok (if on_gpu self' mt
                  then score * (if 1 <? n
                                then 1 * (if skip_conn (general_params self)
                                          then 8 # 10 else 1 # 10)
                                else 1) * (1 # 2)
                  else score * (if 1 <? n
                                then 1 * (if skip_conn (general_params self)
                                          then 8 # 10 else 1 # 10)
                                else 1))%Q) as Hest.
  { intros n mt score nested Hne Hs.
    rewrite (get_time_score_known _ _ _ _ _ Hs). cbn zeta.
    rewrite (Hd _ Hne). unfold level_mult, fold_mult. rewrite Hsk. reflexivity. }
  split; [exact Hcv|].
  split; [exact Hnf|].
  split; [intros nested Hne; by rewrite (Hd _ Hne)|].
  split; [intros n mt nested Hne; unfold get_time_score; by rewrite (Hd _ Hne)|].
  split.
  { unfold fold_mult. rewrite Hnf, Hcv. by destruct (n_folds (nested_cv_params self)). }
  split.
  { intros n sel t p t'. rewrite get_linear_run. cbn zeta. intros [= <- _].
    cbn [nested_kwargs]. split; [exact Hcv | exact Hnf]. }
  split.
  { intros keys n sel t p t' E.
    rewrite get_gbms_result in E.
    destruct (gbm_loop self' n (zip_force keys) ([], []) t) as [[acc|e] t''] eqn:L;
      [|discriminate E].
    injection E as <- <-. cbn [ml_algos nested_kwargs].
    split; [exact Hcv|]. split; [exact Hnf|].
    pose proof L as L'.
    apply gbm_loop_ok_inv in L' as (_ & _ & _ & _ & _ & _ & _ & F & K).
    destruct (gbm_loop_units self' n _ ([], []) t F K) as (us & E2 & _ & Ss).
    rewrite E2 in L. injection L as <- <-.
    rewrite zip_force_keys in Ss. cbn [fst app].
    eapply Forall2_impl; [exact Ss|].
    intros key u G. cbn beta in G.
    destruct (_time_scores !! key) as [score|] eqn:Hs.
    - exists score. split; [reflexivity|].
      rewrite (Hest n key score None ltac:(discriminate) Hs) in G.
      injection G as G. rewrite <- G. by destruct (on_gpu self' key).
    - rewrite (get_time_score_unknown _ _ _ _ Hs) in G. discriminate G. }
  split.
  { intros n mt score nested Hne Hs. rewrite (Hest n mt score nested Hne Hs).
    by destruct (on_gpu self' mt). }
  split.
  { intros n mt score Hs.
    rewrite (get_time_score_known _ _ _ _ _ Hs). cbn zeta.
    unfold level_mult, fold_mult. cbn [default]. rewrite Hsk, Hnf, Hcv.
    destruct (n_folds (nested_cv_params self)); by destruct (on_gpu self' mt). }
  intros n sel t. eexists. rewrite get_linear_run. cbn zeta.
  split.
  { rewrite Hn. unfold level_mult, fold_mult. rewrite Hsk. reflexivity. }
  cbn [nested_kwargs]. split; [exact Hcv | exact Hnf].
Qed.

(** The theorem at the sample instance with [cv = 5] and [n_folds = 5]
    configured: after inference [cv] is 1 and [n_folds] still 5; at level 2,
    with skip connections, the ["lgb"] estimate is 8/10 without the nested
    flag and 5 * 8/10 with [nested=True]; the linear pipeline gets
    [cv = 1], [n_folds = 5] and a timer of score 7/10. *)
Lemma C3_nested_cv_disabled_witness :
  let self' := (infer_auto_params sample_hardware sample_folds 20000 true).1 in
  cv (nested_cv_params sample_folds) = 5 /\
  cv (nested_cv_params self') = 1 /\
  n_folds (nested_cv_params self') = Some 5 /\
  get_time_score self' 2 "lgb" None = Ok (8 # 10) /\
  get_time_score self' 2 "lgb" (Some true) = Ok (40 # 10) /\
  (exists p,
     get_linear self' 1 None []
     = (Ok p, [{| timer_key := "reg_l2"; timer_score := 7 # 10 |}]) /\
     cv (nested_kwargs p) = 1 /\ n_folds (nested_kwargs p) = Some 5).
Proof.
  cbn zeta.
  destruct (C3_nested_cv_disabled sample_hardware sample_folds 20000 true eq_refl)
    as (Hcv & Hnf & _ & _ & _ & _ & _ & Hoff & Hon & Hlin).
  split; [reflexivity|].
  split; [exact Hcv|].
  split; [exact Hnf|].
  split; [exact (Hoff 2 "lgb" 1%Q None ltac:(discriminate) eq_refl)|].
  split; [exact (Hon 2 "lgb" 1%Q eq_refl)|].
  exact (Hlin 1 None []).
Defined.

(** C3 as stated fails for a configured number of folds.  With nested
    cross-validation disabled and [n_folds = 5], inference leaves [n_folds]
    at 5: a nested estimate computed afterwards has fold multiplier 5, and
    the pipeline built afterwards is handed [n_folds = 5]. *)
Lemma C3_configured_n_folds_survives :
  let self' := (infer_auto_params sample_hardware sample_folds 20000 true).1 in
  nested_cv (general_params sample_folds) = false /\
  n_folds (nested_cv_params self') = Some 5 /\
  fold_mult self' true = inject_Z 5 /\
  get_time_score self' 1 "lgb" (Some true) = Ok (inject_Z 5) /\
  get_time_score self' 1 "lgb" (Some false) = Ok 1%Q /\
  (exists p t', get_linear self' 1 None [] = (Ok p, t') /\
                n_folds (nested_kwargs p) = Some 5).
Proof.
  cbn zeta. repeat split; try reflexivity.
  eexists _, _. split; reflexivity.
Qed.

(** * Further properties *)

(** ** The time score *)

(** X1.  The estimate exists exactly for the model types of the relative-cost
    table, whatever the level, the nested flag and the instance; any other
    model type ends in the [KeyError] of the table lookup. *)
Theorem time_score_defined_iff_in_table (self : TabularAutoML) (n : Z)
    (mt : string) (nested : option bool) :
  (is_ok (get_time_score self n mt nested) = true <-> in_cost_table mt) /\
  (~ in_cost_table mt -> get_time_score self n mt nested = Raise (KeyError mt)).
Proof.
  unfold in_cost_table.
  destruct (_time_scores !! mt) as [s|] eqn:Hs.
  - rewrite (get_time_score_known _ _ _ _ _ Hs). cbn zeta.
    split; [split; [by eexists | done]|].
    intros H. destruct H. by eexists.
  - rewrite (get_time_score_unknown _ _ _ _ Hs).
    split; [split; [done | by intros [? ?]] | done].
Qed.

Lemma time_score_defined_iff_in_table_witness :
  get_time_score sample_automl 1 "xgb" None = Raise (KeyError "xgb") /\
  is_ok (get_time_score sample_automl 1 "cb_tuned" None) = true.
Proof.
  split.
  - apply (time_score_defined_iff_in_table sample_automl 1 "xgb" None).
    intros [s Hs]. discriminate Hs.
  - apply (time_score_defined_iff_in_table sample_automl 1 "cb_tuned" None).
    exists 6%Q. reflexivity.
Defined.

(** X2.  Training CatBoost on GPU halves the estimate of the CatBoost model
    types ["cb"] and ["cb_tuned"] and leaves every other estimate as it is:
    whatever the estimate under a task type other than ["GPU"], the estimate
    under ["GPU"] is half of it for the two CatBoost keys and the same for
    the rest. *)
Theorem gpu_halves_catboost_score (self : TabularAutoML) (n : Z) (mt : string)
    (nested : option bool) (v : string) (s : Q) :
  v <> "GPU" ->
  get_time_score (set_task_type v self) n mt nested = Ok s ->
  get_time_score (set_task_type "GPU" self) n mt nested
  = Ok (if str_in mt ["cb"; "cb_tuned"] then s * (1 # 2) else s)%Q.
Proof.
  intros Hv H.
  destruct (_time_scores !! mt) as [score|] eqn:Hs;
    [| by rewrite (get_time_score_unknown _ _ _ _ Hs) in H].
  rewrite (get_time_score_known _ _ _ _ _ Hs) in H.
  rewrite (get_time_score_known _ _ _ _ _ Hs). cbn zeta in *.
  assert (forall w, on_gpu (set_task_type w self) mt
                    = str_in mt ["cb"; "cb_tuned"] && String.eqb w "GPU") as Hg
    by reflexivity.
  rewrite (Hg v) in H. rewrite (Hg "GPU").
  apply String.eqb_neq in Hv. rewrite Hv, andb_false_r in H.
  injection H as <-.
  change (String.eqb "GPU" "GPU") with true. rewrite andb_true_r.
  by destruct (str_in mt ["cb"; "cb_tuned"]).
Qed.

Lemma gpu_halves_catboost_score_witness :
  get_time_score (set_task_type "GPU" sample_automl) 1 "cb_tuned" None = Ok (6 * (1 # 2))%Q /\
  get_time_score (set_task_type "GPU" sample_automl) 1 "lgb_tuned" None = Ok 3%Q.
Proof.
  split.
  - apply (gpu_halves_catboost_score sample_automl 1 "cb_tuned" None "CPU" 6%Q);
      [discriminate | reflexivity].
  - apply (gpu_halves_catboost_score sample_automl 1 "lgb_tuned" None "CPU" 3%Q);
      [discriminate | reflexivity].
Defined.

(** X3.  With a positive fold multiplier (as with every estimate that is not
    nested) the estimate of a model type of the table is positive, at every
    level and on either hardware. *)
Theorem time_score_positive (self : TabularAutoML) (n : Z) (mt : string)
    (nested : option bool) :
  in_cost_table mt ->
  (0 < fold_mult self (default (nested_cv (general_params self)) nested))%Q ->
  exists s, get_time_score self n mt nested = Ok s /\ (0 < s)%Q.
Proof.
  intros [score Hs] Hm.
  pose proof (time_score_pos _ _ Hs) as Hp.
  rewrite (get_time_score_known _ _ _ _ _ Hs). cbn zeta.
  eexists; split; [reflexivity|].
  set (m := fold_mult _ _) in *.
  assert (0 < score * m)%Q as Hx by (apply Qmult_lt_0_compat; assumption).
  unfold level_mult.
  destruct (on_gpu self mt), (1 <? n), (skip_conn (general_params self)); nra.
Qed.

Lemma time_score_positive_witness :
  exists s, get_time_score sample_folds 2 "linear_l2" (Some true) = Ok s /\ (0 < s)%Q.
Proof.
  apply (time_score_positive sample_folds 2 "linear_l2" (Some true)).
  - exists (7 # 10). reflexivity.
  - reflexivity.
Defined.

(** X4.  The selector's budget does not depend on the nested cross-validation
    settings: changing the global nested flag, [cv] and [n_folds] changes
    neither the selector that is built nor the timers that are issued. *)
Theorem selector_ignores_nested_settings (self : TabularAutoML) (n : Z)
    (t : PipelineTimer) (b : bool) (c : Z) (f : option Z) :
  get_selector (set_nested_cv b (set_cv c (set_n_folds f self))) n t
  = get_selector self n t.
Proof.
  unfold get_selector.
  rewrite !get_time_score_lgb_plain. reflexivity.
Qed.

(** ** Parameter inference *)

(** Inference as one record: each section is changed by one step only. *)
Lemma infer_auto_params_normal_form hw self length ma :
  (infer_auto_params hw self length ma).1 =
  let c := Z.min (os_cpu_count hw) (cpu_limit self) in
  let d := cb_default_params (cb_params (infer_gpu hw self)) in
  let l := lgb_default_params (lgb_params self) in
  {| task := task self; cpu_limit := cpu_limit self; gpu_ids := gpu_ids self;
     general_params := general_params (infer_use_algos ma self);
     nested_cv_params := nested_cv_params (infer_nested_cv self);
     tuning_params := tuning_params (infer_tuning_iter length self);
     selection_params := selection_params self;
     lgb_params := {| lgb_default_params :=
                        {| num_threads := Z.min (num_threads l) c;
                           feature_fraction := feature_fraction l |};
                      lgb_freeze_defaults := lgb_freeze_defaults (lgb_params self) |};
     cb_params := {| cb_default_params :=
                       {| task_type := task_type d; devices := devices d;
                          thread_count := Z.min (thread_count d) c |};
                     cb_freeze_defaults := cb_freeze_defaults (cb_params self) |};
     reader_params := {| n_jobs := Z.min (n_jobs (reader_params self)) c;
                         reader_cv := reader_cv (reader_params self) |};
     linear_l2_params := linear_l2_params self;
     gbm_pipeline_params := gbm_pipeline_params self;
     linear_pipeline_params := linear_pipeline_params self;
     read_csv_params := read_csv_params self;
     reader := reader self |}.
Proof.
  destruct self as [tk cl gi [ua ncv sc] [cv0 nf it rt] [mti mtt tfh] sp
                      [[nt ff] lf] [[tt dv tc] cf] [nj rcv] p1 p2 p3 p4 rd].
  unfold infer_auto_params. cbn [fst].
  unfold infer_tuning_iter. cbn.
  destruct mti as [|v];
    [destruct (length <? 10000);
       [|destruct (length <? 30000); [|destruct (length <? 100000)]]|];
    cbn;
    (unfold infer_use_algos; cbn;
     destruct ua as [|l];
       [destruct ((tk.(task_name) =? "multiclass")%string && ma)|];
     cbn;
     unfold infer_nested_cv; cbn;
     destruct ncv; cbn;
     unfold infer_gpu; cbn;
     destruct ((0 <? Z.of_nat (cuda_device_count hw)) && gpu_ids_truthy gi);
     cbn; reflexivity).
Qed.

Lemma infer_auto_params_general_params hw self length ma :
  general_params (infer_auto_params hw self length ma).1
  = general_params (infer_use_algos ma self).
Proof.
  unfold infer_auto_params; cbn [fst].
  rewrite (proj1 (infer_threads_other _ _)), (proj1 (infer_gpu_other _ _)),
    (proj1 (infer_nested_cv_other _)).
  unfold infer_use_algos.
  rewrite (proj1 (infer_tuning_iter_other _ _)).
  assert (task (infer_tuning_iter length self) = task self) as ->.
  { unfold infer_tuning_iter. by repeat case_match. }
  destruct (use_algos (general_params self)); [|by rewrite (proj1 (infer_tuning_iter_other _ _))].
  case_match; cbn; by rewrite (proj1 (infer_tuning_iter_other _ _)).
Qed.

(** X5.  Inference of the algorithm set.  A configured list of levels stays as
    it is.  The sentinel ['auto'] becomes one level with the five default
    algorithms, followed by a second level of the linear model and LightGBM
    exactly when the task is multiclass and a second level is available.
    After inference the algorithm set is never ['auto']. *)
Theorem infer_use_algos_resolved (hw : Hardware) (self : TabularAutoML)
    (length : Z) (ma : bool) :
  let self' := (infer_auto_params hw self length ma).1 in
  (forall l, use_algos (general_params self) = Fixed l -> level_names self' = l) /\
  (use_algos (general_params self) = Auto ->
   level_names self'
   = if String.eqb (task_name (task self)) "multiclass" && ma
     then [ ["lgb"; "lgb_tuned"; "linear_l2"; "cb"; "cb_tuned"]; ["linear_l2"; "lgb"] ]
     else [ ["lgb"; "lgb_tuned"; "linear_l2"; "cb"; "cb_tuned"] ]) /\
  use_algos (general_params self') <> Auto.
Proof.
  cbn zeta. unfold level_names.
  rewrite infer_auto_params_general_params. unfold infer_use_algos.
  destruct (use_algos (general_params self)) as [|l0] eqn:E.
  - split; [done|].
    destruct (String.eqb (task_name (task self)) "multiclass" && ma); by split.
  - rewrite E. split; [by intros l [= ->]|]. by split.
Qed.

Lemma infer_use_algos_resolved_witness :
  level_names (infer_auto_params sample_hardware sample_automl 5000 true).1
  = [ ["lgb"; "lgb_tuned"; "linear_l2"; "cb"; "cb_tuned"] ] /\
  level_names (infer_auto_params sample_hardware sample_multiclass 5000 true).1
  = [ ["lgb"; "lgb_tuned"; "linear_l2"; "cb"; "cb_tuned"]; ["linear_l2"; "lgb"] ] /\
  level_names (infer_auto_params sample_hardware sample_multiclass 5000 false).1
  = [ ["lgb"; "lgb_tuned"; "linear_l2"; "cb"; "cb_tuned"] ].
Proof.
  split; [|split].
  - apply (infer_use_algos_resolved sample_hardware sample_automl 5000 true). reflexivity.
  - apply (infer_use_algos_resolved sample_hardware sample_multiclass 5000 true). reflexivity.
  - apply (infer_use_algos_resolved sample_hardware sample_multiclass 5000 false). reflexivity.
Defined.

Lemma replace_char_comma_free s : comma_free (replace_char "," ":" s).
Proof.
  unfold comma_free. induction s as [|c s IH]; [reflexivity|].
  cbn [replace_char str_contains]. rewrite IH, orb_false_r.
  cbn [String.prefix].
  destruct (Ascii.eqb c ",") eqn:E.
  - reflexivity.
  - apply Ascii.eqb_neq in E.
    destruct (ascii_dec "," c) as [Hc|]; [by destruct E | reflexivity].
Qed.

Lemma replace_char_length a b s :
  String.length (replace_char a b s) = String.length s.
Proof. induction s as [|c s IH]; [reflexivity|]. cbn. by rewrite IH. Qed.

Lemma infer_auto_params_cb hw self length ma :
  let c := Z.min (os_cpu_count hw) (cpu_limit self) in
  let d := cb_default_params (cb_params (infer_gpu hw self)) in
  cb_default_params (cb_params (infer_auto_params hw self length ma).1)
  = {| task_type := task_type d; devices := devices d;
       thread_count := Z.min (thread_count d) c |}.
Proof. by rewrite infer_auto_params_normal_form. Qed.

(** X6.  Inference of the GPU settings of CatBoost.  Without a CUDA device, or
    with [gpu_ids] empty or [None], task type and devices stay as
    configured.  With a device and non-empty [gpu_ids] the task type becomes
    ["GPU"] and the devices string is set and holds no comma: it is the
    configured [gpu_ids] with every comma replaced by a colon, and for
    ['all'] the indices of all devices joined by commas, treated the same
    way. *)
Theorem infer_gpu_devices (hw : Hardware) (self : TabularAutoML)
    (length : Z) (ma : bool) :
  let d := cb_default_params (cb_params self) in
  let d' := cb_default_params (cb_params (infer_auto_params hw self length ma).1) in
  (cuda_device_count hw = 0%nat \/ gpu_ids_truthy (gpu_ids self) = false ->
   task_type d' = task_type d /\ devices d' = devices d) /\
  (cuda_device_count hw <> 0%nat -> gpu_ids_truthy (gpu_ids self) = true ->
   task_type d' = "GPU" /\
   exists ids s,
     gpu_ids self = Some ids /\ devices d' = Some s /\ comma_free s /\
     s = replace_char "," ":"
           (if bool_decide (ids = "all") then all_gpu_ids (cuda_device_count hw)
            else ids)).
Proof.
  cbn zeta. rewrite infer_auto_params_cb. cbn zeta.
  cbn [task_type devices]. unfold infer_gpu.
  split.
  - intros [H|H].
    + rewrite H. done.
    + rewrite H, andb_false_r. done.
  - intros H1 H2. rewrite H2, andb_true_r.
    destruct (0 <? Z.of_nat (cuda_device_count hw)) eqn:E;
      [|apply Z.ltb_ge in E; lia].
    cbn [cb_params cb_default_params set_cb_default_params task_type devices].
    split; [done|].
    destruct (gpu_ids self) as [ids|] eqn:Eg; [|done].
    eexists ids, _. split; [done|]. split; [reflexivity|].
    split; [apply replace_char_comma_free|].
    cbn [default]. f_equal.
    destruct (decide (ids = "all")) as [->|Hne].
    + by rewrite !bool_decide_eq_true_2.
    + rewrite !bool_decide_eq_false_2; [done | done | congruence].
Qed.

Lemma infer_gpu_devices_witness :
  devices (cb_default_params (cb_params
    (infer_auto_params {| cuda_device_count := 3; os_cpu_count := 16 |}
       sample_automl 5000 true).1)) = Some "0:1:2" /\
  devices (cb_default_params (cb_params
    (infer_auto_params {| cuda_device_count := 3; os_cpu_count := 16 |}
       (set_gpu_ids (Some "0,2") sample_automl) 5000 true).1)) = Some "0:2" /\
  task_type (cb_default_params (cb_params
    (infer_auto_params sample_hardware sample_automl 5000 true).1)) = "CPU".
Proof.
  split; [|split].
  - destruct (infer_gpu_devices {| cuda_device_count := 3; os_cpu_count := 16 |}
                sample_automl 5000 true) as [_ H].
    destruct H as (_ & ids & s & Hi & -> & _ & ->); [discriminate | reflexivity |].
    injection Hi as <-. reflexivity.
  - destruct (infer_gpu_devices {| cuda_device_count := 3; os_cpu_count := 16 |}
                (set_gpu_ids (Some "0,2") sample_automl) 5000 true) as [_ H].
    destruct H as (_ & ids & s & Hi & -> & _ & ->); [discriminate | reflexivity |].
    injection Hi as <-. reflexivity.
  - apply (infer_gpu_devices sample_hardware sample_automl 5000 true).
    left. reflexivity.
Defined.

(** X7.  Inference of the thread counts.  The count handed to torch is the
    smaller of the machine's CPU count and the instance's CPU limit; the
    thread counts of CatBoost, of LightGBM and of the reader become the
    smaller of their configured value and that count, so none of them is
    raised and none exceeds the CPU limit or the machine's CPU count. *)
Theorem infer_threads_clamped (hw : Hardware) (self : TabularAutoML)
    (length : Z) (ma : bool) :
  let r := infer_auto_params hw self length ma in
  let c := Z.min (os_cpu_count hw) (cpu_limit self) in
  let tc := thread_count (cb_default_params (cb_params r.1)) in
  let nt := num_threads (lgb_default_params (lgb_params r.1)) in
  let nj := n_jobs (reader_params r.1) in
  r.2 = c /\
  tc = Z.min (thread_count (cb_default_params (cb_params self))) c /\
  nt = Z.min (num_threads (lgb_default_params (lgb_params self))) c /\
  nj = Z.min (n_jobs (reader_params self)) c /\
  tc <= cpu_limit self /\ nt <= cpu_limit self /\ nj <= cpu_limit self /\
  tc <= os_cpu_count hw /\ nt <= os_cpu_count hw /\ nj <= os_cpu_count hw /\
  cpu_limit r.1 = cpu_limit self.
Proof.
  cbn zeta.
  assert ((infer_auto_params hw self length ma).2
          = Z.min (os_cpu_count hw) (cpu_limit self)) as E0.
  { unfold infer_auto_params. cbn [snd]. f_equal.
    unfold infer_gpu, infer_nested_cv, infer_use_algos, infer_tuning_iter.
    repeat case_match; reflexivity. }
  rewrite E0, infer_auto_params_normal_form. cbn zeta.
  cbn [cb_params cb_default_params thread_count lgb_params lgb_default_params
       num_threads reader_params n_jobs cpu_limit].
  assert (thread_count (cb_default_params (cb_params (infer_gpu hw self)))
          = thread_count (cb_default_params (cb_params self))) as ->.
  { unfold infer_gpu. by case_match. }
  repeat split; lia.
Qed.

Lemma infer_threads_clamped_witness :
  let r := infer_auto_params sample_hardware sample_automl 5000 true in
  r.2 = 4 /\
  thread_count (cb_default_params (cb_params r.1)) = 4 /\
  num_threads (lgb_default_params (lgb_params r.1)) = 4 /\
  n_jobs (reader_params r.1) = 4.
Proof.
  cbn zeta.
  destruct (infer_threads_clamped sample_hardware sample_automl 5000 true)
    as (E0 & E1 & E2 & E3 & _).
  split; [exact E0|]. split; [exact E1|]. split; [exact E2 | exact E3].
Defined.

Lemma Zmin_min_same x c : Z.min (Z.min x c) c = Z.min x c.
Proof. lia. Qed.

(** X8.  Inference is idempotent: after one inference a second one on the same
    hardware changes nothing, whatever row count and multilevel flag it is
    given; it hands the same thread count to torch. *)
Theorem infer_auto_params_idempotent (hw : Hardware) (self : TabularAutoML)
    (length length' : Z) (ma ma' : bool) :
  infer_auto_params hw (infer_auto_params hw self length ma).1 length' ma'
  = infer_auto_params hw self length ma.
Proof.
  assert (forall s l m, (infer_auto_params hw s l m).2
                        = Z.min (os_cpu_count hw) (cpu_limit s)) as E2.
  { intros s l m. unfold infer_auto_params. cbn [snd]. f_equal.
    unfold infer_gpu, infer_nested_cv, infer_use_algos, infer_tuning_iter.
    repeat case_match; reflexivity. }
  rewrite (surjective_pairing (infer_auto_params hw _ length' ma')).
  rewrite (surjective_pairing (infer_auto_params hw self length ma)).
  rewrite !E2.
  rewrite (infer_auto_params_normal_form hw _ length' ma').
  rewrite (infer_auto_params_normal_form hw self length ma).
  destruct self as [tk cl gi [ua ncv sc] [cv0 nf it rt] [mti mtt tfh] sp
                      [[nt ff] lf] [[tt dv tc] cf] [nj rcv] p1 p2 p3 p4 rd].
  cbn -[Z.min Z.ltb Z.of_nat].
  unfold infer_tuning_iter. cbn -[Z.min Z.ltb Z.of_nat].
  destruct mti as [|v];
    [destruct (length <? 10000);
       [|destruct (length <? 30000); [|destruct (length <? 100000)]]|];
    cbn -[Z.min Z.ltb Z.of_nat];
    (unfold infer_use_algos; cbn -[Z.min Z.ltb Z.of_nat];
     destruct ua as [|l];
       [destruct ((tk.(task_name) =? "multiclass")%string && ma)|];
     cbn -[Z.min Z.ltb Z.of_nat];
     unfold infer_nested_cv; cbn -[Z.min Z.ltb Z.of_nat];
     destruct ncv; cbn -[Z.min Z.ltb Z.of_nat];
     unfold infer_gpu; cbn -[Z.min Z.ltb Z.of_nat];
     destruct ((0 <? Z.of_nat (cuda_device_count hw)) && gpu_ids_truthy gi);
     cbn -[Z.min Z.ltb Z.of_nat];
     rewrite !Zmin_min_same; reflexivity).
Qed.

(** X9.  What inference never touches.  The task, the CPU limit, the configured
    [gpu_ids], the selection section, the nested flag and the skip
    connection of the general section, [n_folds] and the other entries of
    the nested-CV section apart from [cv], the tuning time and hold-out
    flag, the LightGBM and CatBoost settings other than thread counts and
    CatBoost's task type and devices, the forwarded keyword dictionaries and
    the reader attribute are after inference what they were before. *)
Theorem infer_auto_params_frame (hw : Hardware) (self : TabularAutoML)
    (length : Z) (ma : bool) :
  let self' := (infer_auto_params hw self length ma).1 in
  task self' = task self /\ cpu_limit self' = cpu_limit self /\
  gpu_ids self' = gpu_ids self /\
  selection_params self' = selection_params self /\
  nested_cv (general_params self') = nested_cv (general_params self) /\
  skip_conn (general_params self') = skip_conn (general_params self) /\
  n_folds (nested_cv_params self') = n_folds (nested_cv_params self) /\
  inner_tune (nested_cv_params self') = inner_tune (nested_cv_params self) /\
  refit_tuner (nested_cv_params self') = refit_tuner (nested_cv_params self) /\
  max_tuning_time (tuning_params self') = max_tuning_time (tuning_params self) /\
  tuning_fit_on_holdout (tuning_params self')
    = tuning_fit_on_holdout (tuning_params self) /\
  feature_fraction (lgb_default_params (lgb_params self'))
    = feature_fraction (lgb_default_params (lgb_params self)) /\
  lgb_freeze_defaults (lgb_params self') = lgb_freeze_defaults (lgb_params self) /\
  cb_freeze_defaults (cb_params self') = cb_freeze_defaults (cb_params self) /\
  reader_cv (reader_params self') = reader_cv (reader_params self) /\
  linear_l2_params self' = linear_l2_params self /\
  gbm_pipeline_params self' = gbm_pipeline_params self /\
  linear_pipeline_params self' = linear_pipeline_params self /\
  read_csv_params self' = read_csv_params self /\
  reader self' = reader self.
Proof.
  cbn zeta. rewrite infer_auto_params_normal_form. cbn zeta.
  cbn [task cpu_limit gpu_ids selection_params general_params nested_cv_params
       tuning_params lgb_params lgb_default_params feature_fraction
       lgb_freeze_defaults cb_params cb_freeze_defaults reader_params reader_cv
       linear_l2_params gbm_pipeline_params linear_pipeline_params
       read_csv_params reader].
  destruct (infer_use_algos_other ma self) as (E1 & E2 & _).
  destruct (infer_nested_cv_other self) as (_ & E3 & _).
  assert (inner_tune (nested_cv_params (infer_nested_cv self))
          = inner_tune (nested_cv_params self) /\
          refit_tuner (nested_cv_params (infer_nested_cv self))
          = refit_tuner (nested_cv_params self)) as [E4 E5].
  { unfold infer_nested_cv. by case_match. }
  assert (max_tuning_time (tuning_params (infer_tuning_iter length self))
          = max_tuning_time (tuning_params self) /\
          tuning_fit_on_holdout (tuning_params (infer_tuning_iter length self))
          = tuning_fit_on_holdout (tuning_params self)) as [E6 E7].
  { unfold infer_tuning_iter. by repeat case_match. }
  rewrite E1, E2, E3, E4, E5, E6, E7. by repeat split.
Qed.

(** ** The level builders *)

(** X10.  The units of a boosting level.  Whenever [get_gbms] returns, its units
    answer the first four requested keys one by one: a LightGBM model with
    the instance's LightGBM parameters for the base ['lgb'], a CatBoost
    model with its CatBoost parameters for the base ['cb'], paired with a
    tuner built from the tuning section exactly when the key contains
    ['_tuned'].  The timers issued are the units' timers, in that order and
    after the timers issued before, each with the time score of its key.
    The selector handed in is the pipeline's pre-selection. *)
Theorem get_gbms_units_follow_keys (self : TabularAutoML) (keys : list string)
    (n : Z) (sel : option SelectionPipeline) (t : PipelineTimer)
    (p : NestedTabularMLPipeline) (t' : PipelineTimer) :
  get_gbms self keys n sel t = (Ok p, t') ->
  Forall2 (unit_for_key self) (take 4 keys) (ml_algos p) /\
  t' = (t ++ map (fun u => algo_timer (unit_model u)) (ml_algos p))%list /\
  Forall2 (fun key u => get_time_score self n key None
                        = Ok (timer_score (algo_timer (unit_model u))))
          (take 4 keys) (ml_algos p) /\
  pre_selection p = sel /\
  nested_kwargs p = nested_cv_params self /\
  features_pipeline p = LGBAdvancedPipeline false (gbm_pipeline_params self).
Proof.
  rewrite get_gbms_result.
  destruct (gbm_loop _ _ _ _ _) as [[acc|e] t''] eqn:E; [|done].
  intros [= <- <-]. cbn [ml_algos pre_selection nested_kwargs features_pipeline].
  pose proof E as E'.
  apply gbm_loop_ok_inv in E' as (_ & _ & _ & _ & _ & _ & _ & F & K).
  destruct (gbm_loop_units self n _ ([], []) t F K) as (us & E2 & Us & Ss).
  rewrite E2 in E. injection E as <- <-.
  rewrite zip_force_keys in Us, Ss. cbn [fst app]. by repeat split.
Qed.

Lemma get_gbms_units_follow_keys_witness :
  exists p t',
    get_gbms sample_automl ["lgb_tuned"; "cb"] 1 None [] = (Ok p, t') /\
    Forall2 (unit_for_key sample_automl) ["lgb_tuned"; "cb"] (ml_algos p) /\
    t' = map (fun u => algo_timer (unit_model u)) (ml_algos p).
Proof.
  destruct (get_gbms sample_automl ["lgb_tuned"; "cb"] 1 None [])
    as [[p|e] t'] eqn:E; [|discriminate E].
  exists p, t'. split; [reflexivity|].
  destruct (get_gbms_units_follow_keys sample_automl ["lgb_tuned"; "cb"] 1 None [] p t' E)
    as (U & T & _).
  split; [exact U | exact T].
Defined.

(** Which exception stops the loop, and after how many timers. *)
Lemma gbm_loop_raise_inv self n pairs : forall acc t e t',
  gbm_loop self n pairs acc t = (Raise e, t') ->
  exists good bad rest tms,
    pairs.*1 = (good ++ bad :: rest)%list /\
    Forall in_cost_table good /\ Forall known_base good /\
    t' = (t ++ tms)%list /\
    ((e = KeyError bad /\ ~ in_cost_table bad /\ length tms = length good) \/
     (e = ValueError "Wrong algo key" /\ in_cost_table bad /\ wrong_base bad /\
      length tms = S (length good))).
Proof.
  induction pairs as [|[key force] rest IH]; intros acc t e t' H; [done|].
  rewrite gbm_loop_cons in H.
  destruct (_time_scores !! key) as [s|] eqn:Hs.
  - assert (in_cost_table key) as Hin by (by exists s).
    destruct (known_or_wrong_base key) as [Hk|Hw].
    + destruct (gbm_step_known_base self n acc key force t Hin Hk) as (u & tm & E & _).
      rewrite E in H.
      apply IH in H as (good & bad & rest' & tms & Ep & F & K & -> & D).
      exists (key :: good), bad, rest', (tm :: tms). cbn. rewrite Ep.
      split; [done|]. split; [by constructor|]. split; [by constructor|].
      split; [by rewrite <- (assoc_L (++))|].
      destruct D as [(-> & Hn & L)|(-> & Hi & Hw & L)]; [left | right].
      * split; [done|]. split; [done|]. cbn. lia.
      * split; [done|]. split; [done|]. split; [done|]. cbn. lia.
    + destruct (gbm_step_wrong_base self n acc key force t Hin Hw) as [tm E].
      rewrite E in H. injection H as <- <-.
      exists [], key, rest.*1, [tm]. cbn.
      split; [done|]. split; [constructor|]. split; [constructor|].
      split; [done|]. right. split; [done|]. split; [done|]. by split.
  - rewrite (gbm_step_unknown_key _ _ _ _ _ _ Hs) in H. injection H as <- <-.
    exists [], key, rest.*1, []. cbn. rewrite app_nil_r.
    split; [done|]. split; [constructor|]. split; [constructor|].
    split; [done|]. left. split; [done|]. split; [|done].
    intros [? ?]. congruence.
Qed.

(** X11.  How [get_gbms] fails.  When it raises, the first of the first four keys
    that is not a boosting key of the table decides: a key without an entry
    in the table gives the [KeyError] of the score lookup, and the timers
    issued by then are those of the keys before it; a key of the table with
    a wrong base gives [ValueError], after a timer has been issued for that
    key too.  Timers issued before the exception stay issued. *)
Theorem get_gbms_failure_point (self : TabularAutoML) (keys : list string)
    (n : Z) (sel : option SelectionPipeline) (t : PipelineTimer)
    (e : exn) (t' : PipelineTimer) :
  get_gbms self keys n sel t = (Raise e, t') ->
  exists good bad rest tms,
    take 4 keys = (good ++ bad :: rest)%list /\
    Forall in_cost_table good /\ Forall known_base good /\
    t' = (t ++ tms)%list /\
    ((e = KeyError bad /\ ~ in_cost_table bad /\ length tms = length good) \/
     (e = ValueError "Wrong algo key" /\ in_cost_table bad /\ wrong_base bad /\
      length tms = S (length good))).
Proof.
  rewrite get_gbms_result.
  destruct (gbm_loop _ _ _ _ _) as [[acc|e0] t''] eqn:E; [done|].
  intros [= <- <-].
  apply gbm_loop_raise_inv in E. by rewrite zip_force_keys in E.
Qed.

Lemma get_gbms_failure_point_witness :
  exists e t' good bad rest tms,
    get_gbms sample_automl ["lgb"; "linear_l2"; "cb"] 1 None [] = (Raise e, t') /\
    ["lgb"; "linear_l2"; "cb"] = (good ++ bad :: rest)%list /\
    Forall known_base good /\ t' = tms.
Proof.
  destruct (get_gbms sample_automl ["lgb"; "linear_l2"; "cb"] 1 None [])
    as [[p|e] t'] eqn:E; [discriminate E|].
  destruct (get_gbms_failure_point sample_automl ["lgb"; "linear_l2"; "cb"] 1 None [] e t' E)
    as (good & bad & rest & tms & Hk & _ & K & Ht & _).
  exists e, t', good, bad, rest, tms.
  split; [reflexivity|]. split; [exact Hk|]. split; [exact K | exact Ht].
Defined.

(** X12.  The boosting keys of a level.  The keys that [create_automl] requests
    for a level are those of ['lgb', 'lgb_tuned', 'cb', 'cb_tuned'] that are
    named in the level and whose base is among the task's losses; they come
    in that fixed order without repetition, whatever the order and the
    repetitions in the level's list of names. *)
Theorem gbm_models_canonical (self : TabularAutoML) (names : list string) :
  sublist (gbm_models self names) ["lgb"; "lgb_tuned"; "cb"; "cb_tuned"] /\
  NoDup (gbm_models self names) /\
  (length (gbm_models self names) <= 4)%nat /\
  (forall x, x ∈ gbm_models self names <->
     x ∈ ["lgb"; "lgb_tuned"; "cb"; "cb_tuned"] /\ x ∈ names /\
     split_head "_" x ∈ task_losses (task self)) /\
  (forall names', (forall x, x ∈ names <-> x ∈ names') ->
     gbm_models self names' = gbm_models self names).
Proof.
  assert (forall x l, str_in x l = true <-> x ∈ l) as Hin.
  { intros x l. unfold str_in. rewrite existsb_exists. split.
    - intros (y & Hy & E). apply String.eqb_eq in E as ->. by apply list_elem_of_In.
    - intros H. exists x. split; [by apply list_elem_of_In | apply String.eqb_refl]. }
  unfold gbm_models.
  set (f := fun x => str_in x names && str_in (split_head "_" x) (task_losses (task self))).
  split; [|split; [|split; [|split]]].
  - cbn [List.filter].
    destruct (f "lgb"), (f "lgb_tuned"), (f "cb"), (f "cb_tuned");
      repeat first [apply sublist_nil | apply sublist_skip | apply sublist_cons].
  - cbn [List.filter].
    destruct (f "lgb"), (f "lgb_tuned"), (f "cb"), (f "cb_tuned");
      repeat (apply NoDup_cons_2; [apply (bool_decide_unpack _); by vm_compute|]);
      apply NoDup_nil_2.
  - cbn [List.filter].
    destruct (f "lgb"), (f "lgb_tuned"), (f "cb"), (f "cb_tuned"); cbn; lia.
  - intros x. rewrite list_elem_of_In, filter_In, <- list_elem_of_In.
    unfold f. rewrite andb_true_iff, !Hin. tauto.
  - intros names' Heq. apply filter_ext. intros x. unfold f.
    f_equal. apply eq_true_iff_eq. rewrite !Hin. symmetry. apply Heq.
Qed.

Lemma gbm_models_canonical_witness :
  gbm_models sample_automl ["cb_tuned"; "lgb"; "linear_l2"; "lgb"]
  = gbm_models sample_automl ["lgb"; "linear_l2"; "cb_tuned"].
Proof.
  apply (gbm_models_canonical sample_automl ["lgb"; "linear_l2"; "cb_tuned"]).
  intros x. rewrite !elem_of_cons, !elem_of_nil. tauto.
Defined.

(** ** Assembly of the levels *)

Lemma get_selector_run self n t :
  exists ps tms,
    get_selector self n t = (Ok ps, t ++ tms)%list /\
    (length tms <= 2)%nat /\
    (mode (selection_params self) <= 0 -> ps = None /\ tms = []).
Proof.
  unfold get_selector. rewrite get_time_score_lgb_plain.
  unfold mbind, Build_bind, bind, lift, get_task_timer, mret, Build_ret, ret.
  destruct (0 <? mode (selection_params self)) eqn:E.
  - apply Z.ltb_lt in E.
    destruct (mode (selection_params self) =? 2).
    + eexists _, _. split; [rewrite <- (assoc_L (++)); reflexivity|].
      split; [cbn; lia | intros; lia].
    + eexists _, _. split; [reflexivity|]. split; [cbn; lia | intros; lia].
  - exists None, []. rewrite app_nil_r.
    split; [reflexivity|]. split; [cbn; lia | by intros].
Qed.

Lemma level_selector_cases self key n ps :
  level_selector self key n ps = None \/
  (level_selector self key n ps = ps /\
   (skip_conn (general_params self) = true \/ n = 0%nat)).
Proof.
  unfold level_selector.
  destruct (str_in key _); [|by left]. cbn [andb].
  destruct (skip_conn (general_params self)); [right; by split; [|left]|].
  cbn [orb]. destruct (Nat.eqb_spec n 0); [right; by split; [|right] | by left].
Qed.

Lemma gbm_models_keys self names :
  Forall in_cost_table (gbm_models self names) /\
  Forall known_base (gbm_models self names) /\
  take 4 (gbm_models self names) = gbm_models self names.
Proof.
  unfold gbm_models.
  set (f := fun x => str_in x names && str_in (split_head "_" x) (task_losses (task self))).
  cbn [List.filter].
  destruct (f "lgb"), (f "lgb_tuned"), (f "cb"), (f "cb_tuned");
    (split; [repeat constructor; eexists; reflexivity|]);
    (split; [|reflexivity]);
    repeat (constructor; [first [by left | by right]|]); constructor.
Qed.

Lemma build_level_run self ps n names t :
  exists lvl tms,
    build_level self ps n names t = (Ok lvl, t ++ tms)%list /\
    level_like self ps n names lvl.
Proof.
  unfold build_level, level_like, level_timer_keys.
  unfold mbind at 1. unfold Build_bind, bind.
  destruct (gbm_models_keys self names) as (F & K & T4).
  assert (forall sel t0, exists pg tms,
            get_gbms self (gbm_models self names) (Z.of_nat n + 1) sel t0
            = (Ok pg, t0 ++ tms)%list /\
            unit_timer_keys pg = map (split_head "_") (gbm_models self names) /\
            pre_selection pg = sel /\ nested_kwargs pg = nested_cv_params self) as G.
  { intros sel t0.
    destruct (get_gbms_returns self (gbm_models self names) (Z.of_nat n + 1) sel t0)
      as (pg & t1 & E); [by rewrite T4 | by rewrite T4 |].
    pose proof E as E'. rewrite get_gbms_result in E'.
    destruct (gbm_loop _ _ _ _ _) as [[acc|e] t''] eqn:EL; [|done].
    injection E' as <- <-.
    apply gbm_loop_ok_inv in EL as (us & tms & -> & -> & _ & _ & M & _).
    eexists _, tms.
    split; [exact E|].
    rewrite zip_force_keys, T4 in M. by repeat split. }
  destruct (str_in "linear_l2" names).
  - unfold mbind, Build_bind, bind, mret, Build_ret, ret.
    rewrite get_linear_run. cbn zeta.
    destruct (0 <? List.length (gbm_models self names))%nat.
    + destruct (G (level_selector self "gbm" n ps)
                  (t ++ [{| timer_key := "reg_l2";
                            timer_score := (7 # 10) * level_mult self (Z.of_nat n + 1)
                              (fold_mult self (nested_cv (general_params self))) |}])%list)
        as (pg & tms & -> & Kp & Sp & Np).
      eexists _, _. split; [rewrite <- (assoc_L (++)); reflexivity|]. cbn [app map].
      rewrite Kp. split; [reflexivity|]. split.
      * constructor; [reflexivity|]. constructor; [exact Np | constructor].
      * constructor; [apply level_selector_cases|].
        constructor; [rewrite Sp; apply level_selector_cases | constructor].
    + eexists _, _. split; [reflexivity|]. cbn [app map].
      split; [reflexivity|]. split.
      * constructor; [reflexivity | constructor].
      * constructor; [apply level_selector_cases | constructor].
  - unfold mret, Build_ret, ret. cbn [app].
    destruct (0 <? List.length (gbm_models self names))%nat.
    + unfold mbind, Build_bind, bind.
      destruct (G (level_selector self "gbm" n ps) t) as (pg & tms & -> & Kp & Sp & Np).
      eexists _, _. split; [reflexivity|]. cbn [app map].
      rewrite Kp. split; [reflexivity|]. split.
      * constructor; [exact Np | constructor].
      * constructor; [rewrite Sp; apply level_selector_cases | constructor].
    + exists [], []. rewrite app_nil_r. split; [reflexivity|].
      split; [reflexivity|]. split; constructor.
Qed.

Lemma build_levels_run self ps algos : forall n levels t,
  exists new tms,
    build_levels self ps n algos levels t = (Ok (levels ++ new)%list, t ++ tms)%list /\
    map (map unit_timer_keys) new = map (level_timer_keys self) algos /\
    (forall i names lvl,
       algos !! i = Some names -> new !! i = Some lvl ->
       level_like self ps (n + i) names lvl).
Proof.
  induction algos as [|names rest IH]; intros n levels t.
  - exists [], []. rewrite !app_nil_r. by repeat split.
  - cbn [build_levels]. unfold mbind, Build_bind, bind.
    destruct (build_level_run self ps n names t) as (lvl & tms1 & -> & L).
    destruct (IH (S n) (levels ++ [lvl])%list (t ++ tms1)%list)
      as (new & tms2 & -> & M & P).
    exists (lvl :: new), (tms1 ++ tms2)%list. rewrite <- !(assoc_L (++)). cbn [app].
    split; [done|]. split.
    + cbn [map]. rewrite M. f_equal. apply L.
    + intros [|i] names' lvl' H1 H2; cbn in H1, H2.
      * injection H1 as <-. injection H2 as <-. by rewrite Nat.add_0_r.
      * replace (n + S i)%nat with (S n + i)%nat by lia. by eapply P.
Qed.

(** What [create_automl] computes, step by step. *)
Lemma create_automl_run hw self verbose train_data valid_data cv_iter t :
  let self' :=
    (infer_auto_params hw self (Z.of_nat (length train_data))
       (bool_decide (valid_data = None) && bool_decide (cv_iter = None))).1 in
  exists ps tms1 levels tms2,
    get_selector self' 1 t = (Ok ps, t ++ tms1)%list /\
    (mode (selection_params self') <= 0 -> ps = None) /\
    map (map unit_timer_keys) levels = map (level_timer_keys self') (level_names self') /\
    (forall i names lvl,
       level_names self' !! i = Some names -> levels !! i = Some lvl ->
       level_like self' ps i names lvl) /\
    create_automl hw self verbose train_data valid_data cv_iter t
    = (Ok (self',
           {| init_reader := {| ptp_task := task self'; ptp_params := reader_params self' |};
              init_levels := levels;
              init_skip_conn := skip_conn (general_params self');
              init_blender := WeightedBlender;
              init_verbose := verbose |}),
       t ++ (tms1 ++ tms2))%list.
Proof.
  cbn zeta. unfold create_automl.
  set (self' := (infer_auto_params hw self _ _).1).
  unfold mbind, Build_bind, bind, mret, Build_ret, ret.
  destruct (get_selector_run self' 1 t) as (ps & tms1 & E1 & _ & Hm).
  destruct (build_levels_run self' ps (level_names self') 0 [] (t ++ tms1)%list)
    as (levels & tms2 & E2 & M & P).
  exists ps, tms1, levels, tms2.
  rewrite E1, E2. cbn [app]. rewrite <- (assoc_L (++)).
  split; [done|]. split; [intros H; by apply Hm|].
  split; [exact M|]. split; [exact P|]. reflexivity.
Qed.

(** X13.  [create_automl] always gets as far as [_initialize].  For every
    instance, hardware and data it returns: no key that it requests from the
    builders is missing from the relative-cost table or has an unknown base.
    It initialises with the weighted blender, the configured skip
    connection, a reader over the task and the inferred reader parameters,
    and one level per entry of the algorithm set as inferred; the timers
    issued before stay in place. *)
Theorem create_automl_always_initializes (hw : Hardware) (self : TabularAutoML)
    (verbose : Z) (train_data : DataFrame) (valid_data : option ReadableToDf)
    (cv_iter : option CvIter) (t : PipelineTimer) :
  let self' :=
    (infer_auto_params hw self (Z.of_nat (length train_data))
       (bool_decide (valid_data = None) && bool_decide (cv_iter = None))).1 in
  exists init tms,
    create_automl hw self verbose train_data valid_data cv_iter t
    = (Ok (self', init), t ++ tms)%list /\
    init_blender init = WeightedBlender /\
    init_skip_conn init = skip_conn (general_params self) /\
    init_reader init = {| ptp_task := task self; ptp_params := reader_params self' |} /\
    init_verbose init = verbose /\
    length (init_levels init) = length (level_names self').
Proof.
  cbn zeta.
  destruct (create_automl_run hw self verbose train_data valid_data cv_iter t)
    as (ps & tms1 & levels & tms2 & _ & _ & M & _ & E).
  cbn zeta in E. rewrite E. eexists _, _. split; [reflexivity|].
  cbn [init_blender init_skip_conn init_reader init_verbose init_levels].
  split; [done|].
  split; [apply infer_auto_params_general|].
  split; [by rewrite infer_auto_params_normal_form|].
  split; [done|].
  apply (f_equal length) in M. by rewrite !length_map in M.
Qed.

(** X14.  The levels that [create_automl] builds.  Level by level, in the order
    of the inferred algorithm set, the pipelines are: the linear pipeline
    (timer key ['reg_l2']) when ['linear_l2'] is named in the level, followed
    by one boosting pipeline over the level's boosting keys when the task
    allows any of them; a level with neither is empty.  Every pipeline is
    handed the nested-CV parameters as inferred. *)
Theorem create_automl_levels_follow_algos (hw : Hardware) (self : TabularAutoML)
    (verbose : Z) (train_data : DataFrame) (valid_data : option ReadableToDf)
    (cv_iter : option CvIter) (t : PipelineTimer)
    (s : TabularAutoML) (init : AutoMLInit) (t' : PipelineTimer) :
  create_automl hw self verbose train_data valid_data cv_iter t = (Ok (s, init), t') ->
  map (map unit_timer_keys) (init_levels init) = map (level_timer_keys s) (level_names s) /\
  (forall lvl p, lvl ∈ init_levels init -> p ∈ lvl ->
     nested_kwargs p = nested_cv_params s) /\
  (forall i names, level_names s !! i = Some names ->
     level_timer_keys s names = [] -> init_levels init !! i = Some []).
Proof.
  destruct (create_automl_run hw self verbose train_data valid_data cv_iter t)
    as (ps & tms1 & levels & tms2 & _ & _ & M & P & E).
  cbn zeta in *. rewrite E. intros [= <- <- <-]. cbn [init_levels].
  set (s := (infer_auto_params hw self _ _).1) in *.
  pose proof (f_equal length M) as L. rewrite !length_map in L.
  split; [exact M|]. split.
  - intros lvl p Hl Hp. apply list_elem_of_lookup in Hl as [i Hi].
    assert (is_Some (level_names s !! i)) as [names Hn].
    { apply lookup_lt_is_Some. apply lookup_lt_Some in Hi. by rewrite <- L. }
    destruct (P i names lvl Hn Hi) as (_ & N & _).
    by eapply Forall_forall in N.
  - intros i names Hn Hk.
    assert (is_Some (levels !! i)) as [lvl Hi].
    { apply lookup_lt_is_Some. apply lookup_lt_Some in Hn. by rewrite L. }
    destruct (P i names lvl Hn Hi) as (K & _).
    assert (map unit_timer_keys lvl = []) as K' by (etrans; [exact K | exact Hk]).
    apply map_eq_nil in K'. by rewrite Hi, K'.
Qed.

Lemma create_automl_levels_follow_algos_witness :
  exists s init t',
    create_automl sample_hardware sample_two_levels 2 sample_frame None None []
    = (Ok (s, init), t') /\
    map (map unit_timer_keys) (init_levels init)
    = [ [["reg_l2"]; ["cb"]]; [["lgb"]]; [] ].
Proof.
  destruct (create_automl sample_hardware sample_two_levels 2 sample_frame None None [])
    as [[[s init]|e] t'] eqn:E; [|discriminate E].
  exists s, init, t'. split; [reflexivity|].
  destruct (create_automl_levels_follow_algos sample_hardware sample_two_levels 2
              sample_frame None None [] s init t' E) as (M & _).
  rewrite M. vm_compute in E. injection E as <- _ _. reflexivity.
Defined.

(** X15.  Where the selector goes.  The selector that [get_selector] returns for
    the inferred instance is built once, before the levels.  A pipeline of
    [create_automl] carries either no selector or that selector, and carries
    it only at the first level or when skip connections are on: with skip
    connections off, no pipeline of a later level has a selector.  With a
    selection mode of 0 or below no pipeline has one. *)
Theorem create_automl_selector_placement (hw : Hardware) (self : TabularAutoML)
    (verbose : Z) (train_data : DataFrame) (valid_data : option ReadableToDf)
    (cv_iter : option CvIter) (t : PipelineTimer)
    (s : TabularAutoML) (init : AutoMLInit) (t' : PipelineTimer) :
  create_automl hw self verbose train_data valid_data cv_iter t = (Ok (s, init), t') ->
  exists ps tms,
    get_selector s 1 t = (Ok ps, t ++ tms)%list /\
    (forall i lvl p, init_levels init !! i = Some lvl -> p ∈ lvl ->
       pre_selection p = None \/
       (pre_selection p = ps /\
        (skip_conn (general_params s) = true \/ i = 0%nat))) /\
    (skip_conn (general_params s) = false ->
     forall i lvl p, init_levels init !! i = Some lvl -> p ∈ lvl -> i <> 0%nat ->
       pre_selection p = None) /\
    (mode (selection_params s) <= 0 ->
     forall lvl p, lvl ∈ init_levels init -> p ∈ lvl -> pre_selection p = None).
Proof.
  destruct (create_automl_run hw self verbose train_data valid_data cv_iter t)
    as (ps & tms1 & levels & tms2 & E1 & Hm & M & P & E).
  cbn zeta in *. rewrite E. intros [= <- <- <-]. cbn [init_levels].
  set (s := (infer_auto_params hw self _ _).1) in *.
  exists ps, tms1. split; [exact E1|].
  assert (forall i lvl p, levels !! i = Some lvl -> p ∈ lvl ->
            pre_selection p = None \/
            (pre_selection p = ps /\
             (skip_conn (general_params s) = true \/ i = 0%nat))) as Q.
  { intros i lvl p Hi Hp.
    assert (is_Some (level_names s !! i)) as [names Hn].
    { apply lookup_lt_is_Some. apply lookup_lt_Some in Hi.
      pose proof (f_equal length M) as L. rewrite !length_map in L.
      by rewrite <- L. }
    destruct (P i names lvl Hn Hi) as (_ & _ & S).
    by eapply Forall_forall in S. }
  split; [exact Q|]. split.
  - intros Hs i lvl p Hi Hp Hne.
    destruct (Q i lvl p Hi Hp) as [H|[_ [H|H]]]; [done | | done].
    assert (true = false) by (etrans; [symmetry; exact H | exact Hs]).
    discriminate.
  - intros Hmode lvl p Hl Hp. apply list_elem_of_lookup in Hl as [i Hi].
    destruct (Q i lvl p Hi Hp) as [H|[H _]]; [done|].
    rewrite H. exact (Hm Hmode).
Qed.

Lemma create_automl_selector_placement_witness :
  exists s init t',
    create_automl sample_hardware sample_two_levels 2 sample_frame None None []
    = (Ok (s, init), t') /\
    (forall lvl p, init_levels init !! 1%nat = Some lvl -> p ∈ lvl ->
       pre_selection p = None).
Proof.
  destruct (create_automl sample_hardware sample_two_levels 2 sample_frame None None [])
    as [[[s init]|e] t'] eqn:E; [|discriminate E].
  exists s, init, t'. split; [reflexivity|].
  destruct (create_automl_selector_placement sample_hardware sample_two_levels 2
              sample_frame None None [] s init t' E) as (ps & tms & _ & _ & H & _).
  intros lvl p Hl Hp. apply (H ltac:(vm_compute in E; by injection E as <- _ _) 1%nat lvl p Hl Hp).
  discriminate.
Defined.

(** ** Reading parameters, roles and prediction *)

(** X16.  The parameters handed to the CSV reader.  The entries ['usecols'] and
    ['dtype'] are always set, replacing what the caller configured under
    these names; every other entry of the configured [read_csv_params] is
    passed on as it is.  ['usecols'] is [None] when there is no reader yet
    or the reader has no used feature, and the reader's used features
    otherwise; ['dtype'] holds the numeric dtypes of the reader, and is
    empty without a reader. *)
Theorem read_csv_params_overrides (self : TabularAutoML) :
  let p := _get_read_csv_params self in
  (forall k, k <> "usecols" -> k <> "dtype" -> p !! k = read_csv_params self !! k) /\
  p !! "usecols"
  = Some (match reader self with
          | Some r => match used_features r with
                      | [] => PyNone
                      | _ :: _ => PyStrList (used_features r)
                      end
          | None => PyNone
          end) /\
  p !! "dtype"
  = Some (PyStrDict (match reader self with
                     | Some r => numeric_dtypes r
                     | None => ∅
                     end)).
Proof.
  cbn zeta. unfold _get_read_csv_params.
  destruct (reader self) as [r|].
  - split; [|split].
    + intros k H1 H2. by rewrite !lookup_insert_ne.
    + rewrite lookup_insert_ne by done. rewrite lookup_insert_eq.
      by destruct (used_features r).
    + by rewrite lookup_insert_eq.
  - split; [|split].
    + intros k H1 H2. by rewrite !lookup_insert_ne.
    + rewrite lookup_insert_ne by done. by rewrite lookup_insert_eq.
    + by rewrite lookup_insert_eq.
Qed.

Lemma read_csv_params_overrides_witness :
  _get_read_csv_params
    (set_reader (Some sample_reader) sample_automl) !! "sep"
  = read_csv_params sample_automl !! "sep".
Proof.
  apply (read_csv_params_overrides (set_reader (Some sample_reader) sample_automl));
    discriminate.
Defined.

(** X17.  The numeric dtypes of a reader: a column has an entry exactly when its
    role is named ['Numeric'], and the entry is the dtype of that role. *)
Theorem numeric_dtypes_lookup (r : Reader) (k d : string) :
  numeric_dtypes r !! k = Some d <->
  exists role, reader_roles r !! k = Some role /\
               role_name role = "Numeric" /\ role_dtype role = d.
Proof.
  unfold numeric_dtypes. rewrite lookup_fmap, fmap_Some.
  split.
  - intros (role & H & ->). apply map_lookup_filter_Some in H as [H1 H2].
    by exists role.
  - intros (role & H1 & H2 & <-). exists role. split; [|done].
    by apply map_lookup_filter_Some.
Qed.

(** X18.  The roles that reach the engine.  A missing [roles] argument counts as
    the empty dictionary.  Every role that [read_data] reports for the
    training data reaches the engine, replacing a role the caller gave
    under the same name; the caller's other roles reach it unchanged. *)
Theorem fit_predict_roles_merge (C : Collaborators) (self : TabularAutoML)
    (train_data : ReadableToDf) (rl : option Kwargs)
    (train_features : option (list string)) (cv_iter : option CvIter)
    (valid_data : option ReadableToDf) (valid_features : option (list string))
    (k : string) :
  let upd_roles :=
    (read_data C {| read_source := train_data; read_features := train_features;
                    read_cpu_limit := cpu_limit self;
                    read_params := _get_read_csv_params self |}).2 in
  fit_roles (run_engine_call
               (fit_predict C self train_data rl train_features cv_iter
                  valid_data valid_features)) !! k
  = match upd_roles !! k with
    | Some v => Some v
    | None => default ∅ rl !! k
    end.
Proof.
  cbn zeta. unfold fit_predict.
  destruct (read_data C _) as [train upd] eqn:E. cbn [snd].
  assert (forall call x, fit_roles (run_engine_call
            {| run_reads := x; run_engine_call := call;
               run_result := super_fit_predict C call |}) = fit_roles call) as Hp by done.
  destruct valid_data as [v|].
  - destruct (read_data C {| read_source := v |}) as [? ?].
    cbn [run_engine_call fit_roles].
    case_bool_decide as Hu.
    + rewrite Hu. by rewrite lookup_empty.
    + rewrite lookup_union. by destruct (upd !! k), (default ∅ rl !! k).
  - cbn [run_engine_call fit_roles].
    case_bool_decide as Hu.
    + rewrite Hu. by rewrite lookup_empty.
    + rewrite lookup_union. by destruct (upd !! k), (default ∅ rl !! k).
Qed.



(** ** The default configurations *)

Lemma string_append_assoc (s1 s2 s3 : string) :
  (s1 ++ s2) ++ s3 = s1 ++ (s2 ++ s3).
Proof.
  induction s1 as [|c s1 IH]; [reflexivity|].
  change (String c ((s1 ++ s2) ++ s3) = String c (s1 ++ (s2 ++ s3))).
  by rewrite IH.
Qed.

Lemma path_join2_plain path b :
  String.prefix "/" b = false -> path <> "" -> ends_with_slash path = false ->
  path_join2 path b = path ++ "/" ++ b.
Proof.
  intros Hb Hp He. unfold path_join2. rewrite Hb, He, orb_false_r.
  apply String.eqb_neq in Hp. by rewrite Hp.
Qed.

Lemma ends_with_slash_cons a x y :
  ends_with_slash (String a (String x y)) = ends_with_slash (String x y).
Proof. reflexivity. Qed.

Lemma ends_with_slash_app path b c :
  ends_with_slash (path ++ String c b)
  = ends_with_slash (String c b).
Proof.
  induction path as [|a path IH]; [reflexivity|].
  rewrite <- IH. clear IH.
  change (String a path ++ String c b) with (String a (path ++ String c b)).
  destruct (path ++ String c b) as [|x y] eqn:E.
  - destruct path; discriminate E.
  - apply ends_with_slash_cons.
Qed.

(** X20.  The default configurations of the runner.  For a package directory
    that is not empty and does not end in a slash, the runner without a
    supplied list is set up over the seven template files of the
    ['tabular_configs'] directory inside it, in their numbered order. *)
Theorem default_configs_paths (base : string) (tk : Task)
    (timeout memory_limit cpu : Z) (gpu : option string) (verbose : Z)
    (timing : option Kwargs) (dl : bool) (runs rs : Z) (kw : Kwargs) :
  base <> "" -> ends_with_slash base = false ->
  exists r,
    TabularUtilizedAutoML_init base tk timeout memory_limit cpu gpu verbose
      timing None dl runs rs kw = Some r /\
    configs_list r
    = map (fun x => base ++ "/tabular_configs/" ++ x)
        [ "conf_0_sel_type_0.yml"; "conf_1_sel_type_1.yml";
          "conf_2_select_mode_1_no_typ.yml"; "conf_3_sel_type_1_no_inter_lgbm.yml";
          "conf_4_sel_type_0_no_int.yml"; "conf_5_sel_type_1_tuning_full.yml";
          "conf_6_sel_type_1_tuning_full_no_int_lgbm.yml" ] /\
    random_state_keys r = None /\ random_state r = rs.
Proof.
  intros Hb He. eexists. split; [reflexivity|].
  cbn [configs_list random_state_keys random_state]. split; [|done].
  unfold default_configs.
  assert (forall x, String.prefix "/" x = false ->
            path_join base ["tabular_configs"; x]
            = base ++ "/tabular_configs/" ++ x) as H.
  { intros x Hx. unfold path_join. cbn [fold_left].
    rewrite (path_join2_plain base "tabular_configs") by done.
    rewrite path_join2_plain.
    - rewrite !string_append_assoc. reflexivity.
    - exact Hx.
    - destruct base; [done | discriminate].
    - etrans; [exact (ends_with_slash_app base "tabular_configs" "/") | reflexivity]. }
  cbn [map]. rewrite !H by reflexivity. reflexivity.
Qed.

Lemma default_configs_paths_witness :
  exists r,
    TabularUtilizedAutoML_init "/pkg/presets" sample_task 3600 16 4 None 2 None
      None true 5 42 ∅ = Some r /\
    configs_list r !! 0%nat = Some "/pkg/presets/tabular_configs/conf_0_sel_type_0.yml".
Proof.
  destruct (default_configs_paths "/pkg/presets" sample_task 3600 16 4 None 2 None
              true 5 42 ∅) as (r & E & L & _); [discriminate | reflexivity |].
  exists r. split; [exact E|]. rewrite L. reflexivity.
Defined.
